(** * DASS-21 simulation and checking scripts: a shallow embedding

    The repository holds two Python scripts:
    - [scripts/dass21_data_simulation.py] draws 21 item scores for every
      (group, subject, timepoint), attenuates the intervention arm after
      baseline, sums three subscales and writes a CSV file;
    - [scripts/simulation_checking.py] reads that file, prints the
      group-wise means and the intervention-minus-control differences.

    Python values are modelled as they occur in the scripts: strings as
    [string], integers as [Z], a [dict] as an insertion-ordered association
    list, NumPy's floating-point numbers as exact rationals [Q] (every number
    the statements below depend on lies far away from a rounding boundary of
    binary floating point), exceptions as the left injection of a sum. *)

From Stdlib Require Import ZArith QArith Qround List String Ascii Lia Lqa Bool.
From Stdlib Require Import DecimalString FinFun Permutation.
Import ListNotations.

Open Scope string_scope.
Open Scope Z_scope.

(** ** Python values, dictionaries and exceptions *)

Inductive value : Type :=
| VStr (s : string)
| VInt (z : Z).

(** A row or column label of a pandas table: a tuple of values (one
    component per index level). *)
Definition label : Type := list value.

Inductive exn : Type :=
| KeyError (key : label)
| TypeError
| IndexError
| FileNotFoundError (path : string).

Definition value_eqb (a b : value) : bool :=
  match a, b with
  | VStr s, VStr t => String.eqb s t
  | VInt x, VInt y => Z.eqb x y
  | _, _ => false
  end.

(** A [dict] keeps its keys in insertion order; assigning to an existing key
    replaces the value in place, assigning to a new key appends. *)
Definition dict : Type := list (string * value).

Fixpoint dict_get (d : dict) (k : string) : option value :=
  match d with
  | [] => None
  | (k', v) :: d' => if String.eqb k' k then Some v else dict_get d' k
  end.

Fixpoint dict_set (d : dict) (k : string) (v : value) : dict :=
  match d with
  | [] => [(k, v)]
  | (k', v') :: d' =>
      if String.eqb k' k then (k', v) :: d' else (k', v') :: dict_set d' k v
  end.

Definition dict_keys (d : dict) : list string := map fst d.

(** ** A state-and-exception monad

    A computation reads and updates a state (the global random generator for
    the simulation, the console for the checking script) and either returns or
    raises; the state reached so far survives a raise. *)

Definition M (S A : Type) : Type := S -> (exn + A) * S.

Definition ret {S A : Type} (a : A) : M S A := fun s => (inr a, s).

Definition raise {S A : Type} (e : exn) : M S A := fun s => (inl e, s).

Definition bind {S A B : Type} (m : M S A) (k : A -> M S B) : M S B :=
  fun s => match m s with
           | (inl e, s') => (inl e, s')
           | (inr a, s') => k a s'
           end.

Declare Scope monad_scope.
Delimit Scope monad_scope with monad.
Notation "x <- m ;; k" := (bind m (fun x => k))
  (at level 100, m at next level, right associativity) : monad_scope.
Notation "m ;;; k" := (bind m (fun _ => k))
  (at level 100, right associativity) : monad_scope.
Open Scope monad_scope.

(** [for x in xs: acc = f acc x] *)
Fixpoint foldM {S A B : Type} (f : B -> A -> M S B) (xs : list A) (b : B)
  : M S B :=
  match xs with
  | [] => ret b
  | x :: xs' => b' <- f b x ;; foldM f xs' b'
  end.

(** [[f x for x in xs]] *)
Fixpoint mapM {S A B : Type} (f : A -> M S B) (xs : list A) : M S (list B) :=
  match xs with
  | [] => ret []
  | x :: xs' => y <- f x ;; ys <- mapM f xs' ;; ret (y :: ys)
  end.

(** [d[k]] *)
Definition getitem {S : Type} (d : dict) (k : string) : M S value :=
  match dict_get d k with
  | Some v => ret v
  | None => raise (KeyError [VStr k])
  end.

(** The builtin [sum] over a list of values, starting from the integer 0. *)
Definition py_add {S : Type} (a b : value) : M S value :=
  match a, b with
  | VInt x, VInt y => ret (VInt (x + y))
  | _, _ => raise TypeError
  end.

Definition py_sum {S : Type} (vs : list value) : M S value :=
  foldM py_add vs (VInt 0).

(** ** Strings *)

(** [str(n)] for an integer. *)
Definition str_of_int (n : Z) : string := NilZero.string_of_int (Z.to_int n).

(** [s[:n]] *)
Definition str_prefix (n : nat) (s : string) : string := substring 0 n s.

Definition ascii_upper (c : ascii) : ascii :=
  let n := nat_of_ascii c in
  if (Nat.leb 97 n && Nat.leb n 122)%bool then ascii_of_nat (n - 32) else c.

(** [s.upper()] on ASCII text. *)
Fixpoint str_upper (s : string) : string :=
  match s with
  | EmptyString => EmptyString
  | String c s' => String (ascii_upper c) (str_upper s')
  end.

Fixpoint str_repeat (c : ascii) (n : nat) : string :=
  match n with
  | O => EmptyString
  | S n' => String c (str_repeat c n')
  end.

(** The format specification [{n:02d}] for a non-negative integer: decimal
    digits, padded with zeros on the left to width 2. *)
Definition format_02d (n : Z) : string :=
  let s := str_of_int n in
  str_repeat "0"%char (2 - String.length s) ++ s.

(** [range(a, b)] *)
Definition py_range (a b : Z) : list Z :=
  map (fun i => a + Z.of_nat i) (seq 0 (Z.to_nat (b - a))).

(** ** NumPy arithmetic on one-dimensional arrays *)

(** Round to the nearest integer, halves to the even neighbour ([np.rint]). *)
Definition rint (x : Q) : Z :=
  let f := Qfloor x in
  match Qcompare (x - inject_Z f) (1 # 2) with
  | Lt => f
  | Gt => f + 1
  | Eq => if Z.even f then f else f + 1
  end.

(** [np.round] returns floating-point numbers with integral values. *)
Definition np_round (xs : list Q) : list Q := map (fun x => inject_Z (rint x)) xs.

Definition Qmaximum (x y : Q) : Q := if Qle_bool y x then x else y.
Definition Qminimum (x y : Q) : Q := if Qle_bool x y then x else y.

(** [np.clip(xs, lo, hi)] is [minimum(maximum(xs, lo), hi)]. *)
Definition np_clip (xs : list Q) (lo hi : Q) : list Q :=
  map (fun x => Qminimum (Qmaximum x lo) hi) xs.

(** [.astype(int)] truncates towards zero. *)
Definition astype_int (xs : list Q) : list Z :=
  map (fun x => Z.quot (Qnum x) (Z.pos (Qden x))) xs.

(** [scores * c] for an integer array and a floating-point scalar. *)
Definition np_scale (scores : list Z) (c : Q) : list Q :=
  map (fun x => (inject_Z x * c)%Q) scores.

(** ** scripts/dass21_data_simulation.py *)

Definition n_per_group : Z := 20.

Definition timepoints : list string :=
  ["baseline"; "3_months"; "6_months"; "9_months"; "12_months"].

Definition groups : list string := ["intervention"; "control"].

Definition questions : list string :=
  map (fun i => "Q" ++ str_of_int i) (py_range 1 22).

Definition dass_anxiety : list string :=
  ["Q2"; "Q4"; "Q7"; "Q9"; "Q15"; "Q19"; "Q20"].
Definition dass_depression : list string :=
  ["Q3"; "Q5"; "Q10"; "Q13"; "Q16"; "Q17"; "Q21"].
Definition dass_stress : list string :=
  ["Q1"; "Q6"; "Q8"; "Q11"; "Q12"; "Q14"; "Q18"].

(** The default of the keyword argument [effect_size]. *)
Definition effect_size_default : Q := 2 # 10.

Definition apply_treatment_effect (scores : list Z) (effect_size : Q) : list Z :=
  astype_int (np_clip (np_round (np_scale scores (1 - effect_size))) 0 3).

(** The arguments of [np.random.choice] in the script. *)
Definition choice_values : list Z := [0; 1; 2; 3].
Definition choice_p : list Q := [1 # 10; 2 # 10; 4 # 10; 3 # 10].

(** [f"{group[:1].upper()}{subject_id:02d}"] *)
Definition format_full_id (group : string) (subject_id : Z) : string :=
  str_upper (str_prefix 1 group) ++ format_02d subject_id.

(** NumPy's global generator is a collaborator of the script: its state is
    an abstract type, seeding and weighted sampling are operations on it. *)
Class Generator : Type := {
  RandomState : Type;
  np_random_seed : Z -> RandomState;
  np_random_choice : list Z -> list Q -> RandomState -> Z * RandomState
}.

Section Simulator.

Context {G : Generator}.

Definition choice (a : list Z) (p : list Q) : M RandomState Z :=
  fun s => let (x, s') := np_random_choice a p s in (inr x, s').

(** [arr[0]] on the one-element array the script builds. *)
Definition first_item (arr : list Z) : M RandomState Z :=
  match arr with
  | x :: _ => ret x
  | [] => raise IndexError
  end.

(** The body of [for q in questions]. *)
Definition question_body (group time : string) (row : dict) (q : string)
  : M RandomState dict :=
  base_score <- choice choice_values choice_p ;;
  if (String.eqb group "intervention" && negb (String.eqb time "baseline"))%bool
  then
    score <- first_item (apply_treatment_effect [base_score] effect_size_default) ;;
    ret (dict_set row q (VInt score))
  else
    ret (dict_set row q (VInt base_score)).

Definition subscale_total (row : dict) (items : list string)
  : M RandomState value :=
  vs <- mapM (getitem row) items ;; py_sum vs.

(** The body of [for time in timepoints], up to [data.append(row)]. *)
Definition make_row (group full_id time : string) : M RandomState dict :=
  let row := [("id", VStr full_id); ("group", VStr group);
              ("timepoint", VStr time)] in
  row <- foldM (question_body group time) questions row ;;
  a <- subscale_total row dass_anxiety ;;
  let row := dict_set row "DASS_Anxiety" a in
  d <- subscale_total row dass_depression ;;
  let row := dict_set row "DASS_Depression" d in
  s <- subscale_total row dass_stress ;;
  let row := dict_set row "DASS_Stress" s in
  ret row.

Definition time_body (group full_id : string) (data : list dict)
  (time : string) : M RandomState (list dict) :=
  row <- make_row group full_id time ;;
  ret (data ++ [row])%list.

Definition subject_body (group : string) (data : list dict) (subject_id : Z)
  : M RandomState (list dict) :=
  let full_id := format_full_id group subject_id in
  foldM (time_body group full_id) timepoints data.

Definition group_body (data : list dict) (group : string)
  : M RandomState (list dict) :=
  foldM (subject_body group) (py_range 1 (n_per_group + 1)) data.

(** The three nested loops, started from [data = []]. *)
Definition generate : M RandomState (list dict) :=
  foldM group_body groups [].

(** The script from [np.random.seed(42)] to the end of the loops. *)
Definition simulate : (exn + list dict) * RandomState :=
  generate (np_random_seed 42).

(** The successive values the generator hands out from state [s]. *)
Fixpoint draws (n : nat) (s : RandomState) : list Z * RandomState :=
  match n with
  | O => ([], s)
  | S n' =>
      let (x, s') := np_random_choice choice_values choice_p s in
      let (xs, s'') := draws n' s' in
      (x :: xs, s'')
  end.

(** The [k]-th value (from 0) the generator hands out after [np.random.seed(42)]. *)
Definition nth_draw (k : nat) : Z :=
  nth k (fst (draws 4200 (np_random_seed 42))) 0.

End Simulator.

(** *** The derived quantities the statements are phrased with *)

(** What the loop body stores for a draw: the attenuated score for the
    intervention arm after baseline, the draw itself otherwise. *)
Definition treated (group time : string) : bool :=
  (String.eqb group "intervention" && negb (String.eqb time "baseline"))%bool.

Definition attenuate (base_score : Z) : Z :=
  Z.max 0 (Z.min 3 (rint (inject_Z base_score * (1 - effect_size_default)))).

Definition stored_score (group time : string) (base_score : Z) : Z :=
  if treated group time then attenuate base_score else base_score.

(** [sum] of the stored scores at the given positions of a row's 21 draws. *)
Definition total_at (f : Z -> Z) (positions : list nat) (c : list Z) : Z :=
  fold_left Z.add (map (fun i => f (nth i c 0)) positions) 0.

(** The dictionary a row ends up as, in terms of its 21 draws. *)
Definition row_closed (f : Z -> Z) (group full_id time : string) (c : list Z)
  : dict :=
  ([("id", VStr full_id); ("group", VStr group); ("timepoint", VStr time)]
   ++ map (fun qx => (fst qx, VInt (f (snd qx)))) (combine questions c)
   ++ [("DASS_Anxiety", VInt (total_at f [1; 3; 6; 8; 14; 18; 19]%nat c));
       ("DASS_Depression", VInt (total_at f [2; 4; 9; 12; 15; 16; 20]%nat c));
       ("DASS_Stress", VInt (total_at f [0; 5; 7; 10; 11; 13; 17]%nat c))])%list.

(** Cut a list of draws into consecutive chunks of [k], one per element of
    [xs], and collect what [F] makes of each. *)
Fixpoint chunked {A R : Type} (F : A -> list Z -> list R) (k : nat)
  (xs : list A) (l : list Z) : list R :=
  match xs with
  | [] => []
  | x :: xs' => (F x (firstn k l) ++ chunked F k xs' (skipn k l))%list
  end.

(** The rows one subject and one group contribute. *)
Definition subject_rows (group : string) (subject_id : Z) (c : list Z)
  : list dict :=
  chunked (fun time c' =>
             [row_closed (stored_score group time) group
                (format_full_id group subject_id) time c'])
    21 timepoints c.

Definition group_rows (group : string) (c : list Z) : list dict :=
  chunked (subject_rows group) 105 (py_range 1 (n_per_group + 1)) c.

(** The (group, subject, timepoint) triples in loop order. *)
Definition plan : list (string * Z * string) :=
  list_prod (list_prod groups (py_range 1 (n_per_group + 1))) timepoints.

Definition plan_row (p : string * Z * string) (c : list Z) : dict :=
  let '(group, subject_id, time) := p in
  row_closed (stored_score group time) group
    (format_full_id group subject_id) time c.

(** The data set as a function of the stream of draws. *)
Definition rows_of_draws (l : list Z) : list dict :=
  chunked (fun p c => [plan_row p c]) 21 plan l.

(** The item numbers of a subscale: the integer after the letter Q. *)
Definition item_name (i : Z) : string := "Q" ++ str_of_int i.

Definition anxiety_items : list Z := [2; 4; 7; 9; 15; 19; 20].
Definition depression_items : list Z := [3; 5; 10; 13; 16; 17; 21].
Definition stress_items : list Z := [1; 6; 8; 11; 12; 14; 18].

(** Rounding to the nearest integer with halves away from zero, the other
    convention the attenuation could have been written with. *)
Definition round_half_away (x : Q) : Z :=
  if Qle_bool 0 x then Qfloor (x + (1 # 2)) else Qceiling (x - (1 # 2)).

Definition is_half_integer (x : Q) : bool :=
  Qeq_bool (x - inject_Z (Qfloor x)) (1 # 2).

(** [apply_treatment_effect] with that other rounding in place of [np.round]. *)
Definition apply_treatment_effect_half_away (scores : list Z) (effect_size : Q)
  : list Z :=
  astype_int
    (np_clip
       (map (fun x => inject_Z (round_half_away x))
          (np_scale scores (1 - effect_size))) 0 3).

Definition attenuate_half_away (base_score : Z) : Z :=
  Z.max 0 (Z.min 3 (round_half_away (inject_Z base_score * (1 - effect_size_default)))).


(** *** Writing the file *)

(** A pandas data frame as the scripts build and read it: column names and
    one dictionary per row; a key a row lacks is a missing cell. *)
Record DataFrame : Type := {
  df_columns : list string;
  df_rows : list dict
}.

Definition str_mem (k : string) (ks : list string) : bool :=
  existsb (String.eqb k) ks.

(** [pd.DataFrame(data)]: the columns are the keys in order of first
    appearance. *)
Definition pd_DataFrame (data : list dict) : DataFrame :=
  {| df_columns :=
       fold_left
         (fun cols row =>
            fold_left (fun cs k => if str_mem k cs then cs else cs ++ [k])%list
              (dict_keys row) cols)
         data [];
     df_rows := data |}.

Definition dquote : ascii := ascii_of_nat 34.
Definition newline : ascii := ascii_of_nat 10.

Fixpoint str_any (p : ascii -> bool) (s : string) : bool :=
  match s with
  | EmptyString => false
  | String c s' => (p c || str_any p s')%bool
  end.

Fixpoint double_quotes (s : string) : string :=
  match s with
  | EmptyString => EmptyString
  | String c s' =>
      if Ascii.eqb c dquote then String c (String c (double_quotes s'))
      else String c (double_quotes s')
  end.

(** Minimal quoting of the [csv] module: a field is quoted when it holds the
    separator, a quote or a line break. *)
Definition csv_field (s : string) : string :=
  if str_any (fun c => (Ascii.eqb c ","%char || Ascii.eqb c dquote
                        || Ascii.eqb c newline
                        || Ascii.eqb c (ascii_of_nat 13))%bool) s
  then String dquote (double_quotes s ++ String dquote EmptyString)
  else s.

Definition csv_cell (v : option value) : string :=
  match v with
  | Some (VStr s) => csv_field s
  | Some (VInt z) => str_of_int z
  | None => EmptyString
  end.

Definition csv_line (fields : list string) : string :=
  String.concat "," fields ++ String newline EmptyString.

(** [df.to_csv(path, index=False)]: a header line, then one line per row. *)
Definition to_csv (df : DataFrame) : string :=
  csv_line (map csv_field (df_columns df))
  ++ String.concat ""
       (map (fun row => csv_line (map (fun c => csv_cell (dict_get row c))
                                    (df_columns df)))
          (df_rows df)).

Definition output_dir : string := "data".
(** [os.path.join(output_dir, "simulated_dass21_full.csv")] *)
Definition csv_path : string := output_dir ++ "/" ++ "simulated_dass21_full.csv".

(** The whole script: the path it writes and the text it writes there. *)
Definition simulation_script {G : Generator} : (exn + string * string) * RandomState :=
  match simulate with
  | (inr data, s) => (inr (csv_path, to_csv (pd_DataFrame data)), s)
  | (inl e, s) => (inl e, s)
  end.

(** *** Keys of a row *)

Definition row_key (row : dict) : option value * option value :=
  (dict_get row "id", dict_get row "timepoint").

Definition option_value_eqb (a b : option value) : bool :=
  match a, b with
  | Some x, Some y => value_eqb x y
  | None, None => true
  | _, _ => false
  end.

Definition has_key (id time : string) (row : dict) : bool :=
  (option_value_eqb (dict_get row "id") (Some (VStr id))
   && option_value_eqb (dict_get row "timepoint") (Some (VStr time)))%bool.

Definition plan_key (p : string * Z * string) : string * string :=
  let '(group, subject_id, time) := p in (format_full_id group subject_id, time).

Definition key_of_strings (k : string * string) : option value * option value :=
  (Some (VStr (fst k)), Some (VStr (snd k))).

Fixpoint all_distinct (l : list (string * string)) : bool :=
  match l with
  | [] => true
  | k :: l' =>
      (negb (existsb (fun k' => String.eqb (fst k) (fst k')
                                && String.eqb (snd k) (snd k'))%bool l')
       && all_distinct l')%bool
  end.

Definition count_key (keys : list (string * string)) (id time : string) : nat :=
  List.length
    (filter (fun k => String.eqb (fst k) id && String.eqb (snd k) time)%bool keys).

(** The subscale columns with their item lists, as the row is completed. *)
Definition subscales : list (string * list string) :=
  [("DASS_Anxiety", dass_anxiety); ("DASS_Depression", dass_depression);
   ("DASS_Stress", dass_stress)].

(** The positions (from 0) of a subscale's items in the list of questions. *)
Definition subscale_positions (name : string) : list nat :=
  if String.eqb name "DASS_Anxiety" then [1; 3; 6; 8; 14; 18; 19]%nat
  else if String.eqb name "DASS_Depression" then [2; 4; 9; 12; 15; 16; 20]%nat
  else [0; 5; 7; 10; 11; 13; 17]%nat.

(** *** Generators *)

(** What [np.random.choice] promises: the value is one of the candidates. *)
Definition choice_contract (G : Generator) : Prop :=
  forall (a : list Z) (p : list Q) (s : RandomState),
    a <> [] -> In (fst (np_random_choice a p s)) a.

(** A small generator to run the model on: a linear congruential state, the
    candidate picked by the high bits of the state. *)
Definition lcg_choice (a : list Z) (p : list Q) (s : Z) : Z * Z :=
  let s' := (s * 1103515245 + 12345) mod 2147483648 in
  (nth (Z.to_nat ((s' / 65536) mod Z.of_nat (List.length a))) a 0, s').

Definition lcg : Generator :=
  {| RandomState := Z; np_random_seed := fun n => n; np_random_choice := lcg_choice |}.

(** A generator that replays a recorded list of draws, then repeats 0. *)
Definition replay_choice (a : list Z) (p : list Q) (s : list Z) : Z * list Z :=
  match s with
  | x :: s' => (x, s')
  | [] => (0, [])
  end.

Definition replay (tape : list Z) : Generator :=
  {| RandomState := list Z; np_random_seed := fun _ => tape;
     np_random_choice := replay_choice |}.

(** The first 4200 draws of the small generator, as a tape to replay. *)
Definition lcg_tape : list Z := fst (@draws lcg 4200 (@np_random_seed lcg 42)).

(** The data set the model produces with the small generator. *)
Definition lcg_data : list dict :=
  match fst (@simulate lcg) with
  | inr data => data
  | inl _ => []
  end.

(** ** scripts/simulation_checking.py *)

(** The file system as the script sees it: a path leads to the table that
    [pd.read_csv] parses from the file there, or to nothing. *)
Definition filesystem : Type := string -> option DataFrame.

(** A table of floating-point cells with labelled rows and columns, as
    [groupby(...).mean()] and [unstack] produce; [None] is NaN. *)
Record Table : Type := {
  t_index : list label;
  t_columns : list label;
  t_at : label -> label -> option Q
}.

Record Series : Type := {
  s_index : list label;
  s_at : label -> option Q
}.

(** What the script prints, in order. *)
Inductive printed : Type :=
| PText (s : string)
| PTable (t : Table).

Definition console : Type := list printed.

Definition print (x : printed) : M console unit :=
  fun out => (inr tt, (out ++ [x])%list).

Definition read_csv (fs : filesystem) (path : string) : M console DataFrame :=
  match fs path with
  | Some df => ret df
  | None => raise (FileNotFoundError path)
  end.

Fixpoint label_eqb (a b : label) : bool :=
  match a, b with
  | [], [] => true
  | x :: a', y :: b' => (value_eqb x y && label_eqb a' b')%bool
  | _, _ => false
  end.

Definition label_mem (a : label) (ls : list label) : bool :=
  existsb (label_eqb a) ls.

(** The different labels of a list, each once.  (pandas sorts them; the
    order only affects the layout of what is printed.) *)
Fixpoint distinct (ls : list label) : list label :=
  match ls with
  | [] => []
  | a :: ls' => a :: filter (fun b => negb (label_eqb a b)) (distinct ls')
  end.

(** The group a row falls in: its cells in the key columns; a row that
    lacks one of them is left out by [groupby]. *)
Fixpoint row_label (keys : list string) (row : dict) : option label :=
  match keys with
  | [] => Some []
  | k :: keys' =>
      match dict_get row k, row_label keys' row with
      | Some v, Some l => Some (v :: l)
      | _, _ => None
      end
  end.

Definition in_group (keys : list string) (l : label) (row : dict) : bool :=
  match row_label keys row with
  | Some l' => label_eqb l l'
  | None => false
  end.

(** The numbers of a column; a missing cell is skipped. *)
Definition numeric_cells (c : string) (rows : list dict) : list Z :=
  flat_map (fun row => match dict_get row c with
                       | Some (VInt z) => [z]
                       | _ => []
                       end) rows.

Definition column_is_numeric (c : string) (rows : list dict) : bool :=
  forallb (fun row => match dict_get row c with
                      | Some (VStr _) => false
                      | _ => true
                      end) rows.

(** The mean of a group's cells; NaN when there is none. *)
Definition mean (xs : list Z) : option Q :=
  match xs with
  | [] => None
  | _ => Some (inject_Z (fold_left Z.add xs 0%Z)
               / inject_Z (Z.of_nat (List.length xs)))%Q
  end.

Definition first_missing (cols : list string) (df : DataFrame) : option string :=
  find (fun c => negb (str_mem c (df_columns df))) cols.

(** The table of group means: one row per group of rows, one column per
    selected column. *)
Definition grouped_means (df : DataFrame) (keys cols : list string) : Table :=
  let labels :=
    distinct (flat_map (fun row => match row_label keys row with
                                   | Some l => [l]
                                   | None => []
                                   end) (df_rows df)) in
  {| t_index := labels;
     t_columns := map (fun c => [VStr c]) cols;
     t_at := fun l c =>
       match c with
       | [VStr c'] =>
           if (label_mem l labels && str_mem c' cols)%bool
           then mean (numeric_cells c' (filter (in_group keys l) (df_rows df)))
           else None
       | _ => None
       end |}.

(** [df.groupby(keys)[cols].mean()] *)
Definition groupby_mean (df : DataFrame) (keys cols : list string)
  : M console Table :=
  match first_missing keys df with
  | Some k => raise (KeyError [VStr k])
  | None =>
      match first_missing cols df with
      | Some c => raise (KeyError [VStr c])
      | None =>
          if forallb (fun c => column_is_numeric c (df_rows df)) cols
          then ret (grouped_means df keys cols)
          else raise TypeError
      end
  end.

(** [np.round(x, d)]: scale, round to the nearest integer, scale back. *)
Definition round_decimals (d : nat) (x : Q) : Q :=
  (inject_Z (rint (x * inject_Z (10 ^ Z.of_nat d))) / inject_Z (10 ^ Z.of_nat d))%Q.

(** [t.round(d)] *)
Definition table_round (t : Table) (d : nat) : Table :=
  {| t_index := t_index t;
     t_columns := t_columns t;
     t_at := fun l c => option_map (round_decimals d) (t_at t l c) |}.

(** [t.unstack(level=0)]: the first component of the row labels moves to
    the end of the column labels; a combination without a row is NaN. *)
Definition unstack_level0 (t : Table) : Table :=
  let firsts := distinct (map (firstn 1) (t_index t)) in
  {| t_index := distinct (map (skipn 1) (t_index t));
     t_columns := flat_map (fun c => map (fun g => (c ++ g)%list) firsts) (t_columns t);
     t_at := fun l c =>
       let g := skipn (List.length c - 1) c in
       if label_mem (g ++ l)%list (t_index t)
       then t_at t (g ++ l)%list (removelast c)
       else None |}.

Definition column_series (t : Table) (c : label) : Series :=
  {| s_index := t_index t; s_at := fun l => t_at t l c |}.

(** [t[c]] for a column label. *)
Definition table_getitem (t : Table) (c : label) : M console Series :=
  if label_mem c (t_columns t)
  then ret (column_series t c)
  else raise (KeyError c).

(** [a - b], aligned on the row labels. *)
Definition series_sub (a b : Series) : Series :=
  {| s_index := distinct (s_index a ++ s_index b);
     s_at := fun l =>
       match s_at a l, s_at b l with
       | Some x, Some y => Some (x - y)%Q
       | _, _ => None
       end |}.

(** [pd.DataFrame({name: series, ...})] *)
Definition frame_of_series (cols : list (string * Series)) : Table :=
  {| t_index := distinct (flat_map (fun cs => s_index (snd cs)) cols);
     t_columns := map (fun cs => [VStr (fst cs)]) cols;
     t_at := fun l c =>
       match c with
       | [VStr name] =>
           match find (fun cs => String.eqb (fst cs) name) cols with
           | Some cs => s_at (snd cs) l
           | None => None
           end
       | _ => None
       end |}.

Definition line_break : string := String newline EmptyString.

Definition checking_script (fs : filesystem) : M console unit :=
  df <- read_csv fs "data/simulated_dass21_full.csv" ;;
  means <- groupby_mean df ["group"; "timepoint"]
             ["DASS_Anxiety"; "DASS_Depression"; "DASS_Stress"] ;;
  let summary := table_round means 2 in
  print (PText ("Group-wise mean scores over time:" ++ line_break)) ;;;
  print (PTable summary) ;;;
  let diff := unstack_level0 summary in
  a_i <- table_getitem diff [VStr "DASS_Anxiety"; VStr "intervention"] ;;
  a_c <- table_getitem diff [VStr "DASS_Anxiety"; VStr "control"] ;;
  d_i <- table_getitem diff [VStr "DASS_Depression"; VStr "intervention"] ;;
  d_c <- table_getitem diff [VStr "DASS_Depression"; VStr "control"] ;;
  s_i <- table_getitem diff [VStr "DASS_Stress"; VStr "intervention"] ;;
  s_c <- table_getitem diff [VStr "DASS_Stress"; VStr "control"] ;;
  let change :=
    frame_of_series [("Anxiety", series_sub a_i a_c);
                     ("Depression", series_sub d_i d_c);
                     ("Stress", series_sub s_i s_c)] in
  print (PText (line_break ++ "Mean difference (intervention - control):" ++ line_break)) ;;;
  print (PTable (table_round change 2)).

(** *** The quantities the statements about the report are phrased with *)

(** The tables a successful run prints. *)
Definition summary_of (df : DataFrame) : Table :=
  table_round
    (grouped_means df ["group"; "timepoint"]
       ["DASS_Anxiety"; "DASS_Depression"; "DASS_Stress"]) 2.

Definition change_of (df : DataFrame) : Table :=
  let diff := unstack_level0 (summary_of df) in
  table_round
    (frame_of_series
       [("Anxiety",
         series_sub (column_series diff [VStr "DASS_Anxiety"; VStr "intervention"])
           (column_series diff [VStr "DASS_Anxiety"; VStr "control"]));
        ("Depression",
         series_sub (column_series diff [VStr "DASS_Depression"; VStr "intervention"])
           (column_series diff [VStr "DASS_Depression"; VStr "control"]));
        ("Stress",
         series_sub (column_series diff [VStr "DASS_Stress"; VStr "intervention"])
           (column_series diff [VStr "DASS_Stress"; VStr "control"]))]) 2.

(** The groups of rows the table of means has a row for. *)
Definition group_labels (df : DataFrame) : list label :=
  t_index (summary_of df).

Definition summary_heading : printed :=
  PText ("Group-wise mean scores over time:" ++ line_break).
Definition change_heading : printed :=
  PText (line_break ++ "Mean difference (intervention - control):" ++ line_break).

Definition required_columns : list string :=
  ["group"; "timepoint"; "DASS_Anxiety"; "DASS_Depression"; "DASS_Stress"].

Definition subscale_columns : list string :=
  ["DASS_Anxiety"; "DASS_Depression"; "DASS_Stress"].

(** The column of the table of means and the column of the table of
    differences that belong together. *)
Definition report_columns : list (string * string) :=
  [("DASS_Anxiety", "Anxiety"); ("DASS_Depression", "Depression");
   ("DASS_Stress", "Stress")].

(** The rows of a group at a timepoint. *)
Definition rows_at (df : DataFrame) (group time : string) : list dict :=
  filter (fun row =>
            (option_value_eqb (dict_get row "group") (Some (VStr group))
             && option_value_eqb (dict_get row "timepoint") (Some (VStr time)))%bool)
    (df_rows df).

(** The arithmetic mean: the sum divided by the count. *)
Definition arithmetic_mean (xs : list Z) : Q :=
  (inject_Z (fold_left Z.add xs 0%Z) / inject_Z (Z.of_nat (List.length xs)))%Q.

Definition group_mean (df : DataFrame) (group time column : string) : Q :=
  arithmetic_mean (numeric_cells column (rows_at df group time)).

(** Every row holds an integer in each subscale column. *)
Definition integer_totals (df : DataFrame) : Prop :=
  forall row c, In row (df_rows df) -> In c subscale_columns ->
                exists z, dict_get row c = Some (VInt z).

(** Some row of the group has a timepoint, so that the group makes it into
    the table of means. *)
Definition has_group (df : DataFrame) (group : string) : bool :=
  existsb (fun row =>
             (option_value_eqb (dict_get row "group") (Some (VStr group))
              && match dict_get row "timepoint" with
                 | Some _ => true
                 | None => false
                 end)%bool)
    (df_rows df).

(** The tables a run printed. *)
Definition printed_tables (out : console) : list Table :=
  flat_map (fun p => match p with PTable t => [t] | PText _ => [] end) out.

(** *** Sample inputs *)

Definition sample_row (group time : string) (a d s : Z) : dict :=
  [("group", VStr group); ("timepoint", VStr time);
   ("DASS_Anxiety", VInt a); ("DASS_Depression", VInt d); ("DASS_Stress", VInt s)].



(** The one-subject-per-group scenario: anxiety 5 against 10. *)
Definition five_ten : DataFrame :=
  {| df_columns := required_columns;
     df_rows := [sample_row "intervention" "baseline" 5 5 5;
                 sample_row "control" "baseline" 10 5 5] |}.





Definition fs_with (df : DataFrame) : filesystem :=
  fun path => if String.eqb path "data/simulated_dass21_full.csv" then Some df else None.


(** The cell of the last printed table. *)
Definition reported_change (fs : filesystem) (time column : string) : option Q :=
  match rev (printed_tables (snd (checking_script fs []))) with
  | t :: _ => t_at t [VStr time] [VStr column]
  | [] => None
  end.


(** ** Further quantities for the statements below *)

(** The columns of the written file, in order. *)
Definition csv_columns : list string :=
  (["id"; "group"; "timepoint"] ++ questions
   ++ ["DASS_Anxiety"; "DASS_Depression"; "DASS_Stress"])%list.

(** The first line of the written file. *)
Definition csv_header : string := csv_line csv_columns.

Definition of_group (group : string) (row : dict) : bool :=
  option_value_eqb (dict_get row "group") (Some (VStr group)).

Definition at_time (time : string) (row : dict) : bool :=
  option_value_eqb (dict_get row "timepoint") (Some (VStr time)).

Definition group_time (row : dict) : option value * option value :=
  (dict_get row "group", dict_get row "timepoint").

Definition plan_group_time (p : string * Z * string) : option value * option value :=
  let '(group, _, time) := p in (Some (VStr group), Some (VStr time)).

(** Adding the keys of one more row to the columns found so far. *)
Definition add_keys (cols : list string) (keys : list string) : list string :=
  fold_left (fun cs k => if str_mem k cs then cs else cs ++ [k])%list keys cols.

(** The cell of a group at a timepoint in the table of means: NaN when the
    group has no row there, else the rounded mean of the numbers found. *)
Definition group_cell (df : DataFrame) (group time column : string) : option Q :=
  match rows_at df group time with
  | [] => None
  | rows => option_map (round_decimals 2) (mean (numeric_cells column rows))
  end.

(** Sample tables: the control group is missing at 3 months; and the
    5-against-10 table with rows of a third group and a later timepoint. *)
Definition control_misses_3_months : DataFrame :=
  {| df_columns := required_columns;
     df_rows := [sample_row "intervention" "baseline" 5 5 5;
                 sample_row "control" "baseline" 10 5 5;
                 sample_row "intervention" "3_months" 4 4 4] |}.

Definition five_ten_and_more : DataFrame :=
  {| df_columns := ("site" :: required_columns);
     df_rows := [sample_row "placebo" "baseline" 21 21 21;
                 sample_row "intervention" "baseline" 5 5 5;
                 sample_row "control" "3_months" 0 0 0;
                 sample_row "control" "baseline" 10 5 5] |}.

(** Two subjects per group at baseline. *)
Definition pairs : DataFrame :=
  {| df_columns := required_columns;
     df_rows := [sample_row "intervention" "baseline" 5 1 2;
                 sample_row "control" "baseline" 10 3 4;
                 sample_row "intervention" "baseline" 6 2 2;
                 sample_row "control" "baseline" 9 3 5] |}.
(** * Properties of the simulation *)

(** ** The monad *)

Lemma bind_ret_l {S A B : Type} (a : A) (k : A -> M S B) (s : S) :
  bind (ret a) k s = k a s.
Proof. reflexivity. Qed.

Lemma bind_eval {S A B : Type} (m : M S A) (k : A -> M S B) (s s' : S) (a : A) :
  m s = (inr a, s') -> bind m k s = k a s'.
Proof. intros H. unfold bind. now rewrite H. Qed.

Lemma bind_raise {S A B : Type} (m : M S A) (k : A -> M S B) (s s' : S) (e : exn) :
  m s = (inl e, s') -> bind m k s = (inl e, s').
Proof. intros H. unfold bind. now rewrite H. Qed.

(** ** The attenuation *)

Lemma Qle_bool_inject_Z (a b : Z) :
  Qle_bool (inject_Z a) (inject_Z b) = (a <=? b).
Proof. unfold Qle_bool, inject_Z. simpl. now rewrite !Z.mul_1_r. Qed.

Lemma clip_astype_int (k : Z) :
  astype_int (np_clip [inject_Z k] 0 3) = [Z.max 0 (Z.min 3 k)].
Proof.
  unfold astype_int, np_clip, Qmaximum, Qminimum. simpl map.
  change 0%Q with (inject_Z 0). change 3%Q with (inject_Z 3).
  rewrite Qle_bool_inject_Z.
  destruct (Z.leb_spec 0 k) as [Hk | Hk].
  - rewrite Qle_bool_inject_Z.
    destruct (Z.leb_spec k 3) as [Hk3 | Hk3]; simpl;
      rewrite Z.quot_1_r; f_equal; lia.
  - rewrite Qle_bool_inject_Z. simpl. rewrite Z.quot_1_r. f_equal. lia.
Qed.

Lemma apply_treatment_effect_single (x : Z) :
  apply_treatment_effect [x] effect_size_default = [attenuate x].
Proof.
  unfold apply_treatment_effect, np_round, np_scale. simpl map.
  now rewrite clip_astype_int.
Qed.

Lemma attenuate_range (x : Z) : 0 <= attenuate x <= 3.
Proof. unfold attenuate. lia. Qed.

Lemma attenuate_values :
  map attenuate choice_values = [0; 1; 2; 2].
Proof. reflexivity. Qed.

Lemma list_of_length_21 (l : list Z) :
  List.length l = 21%nat ->
  exists x1 x2 x3 x4 x5 x6 x7 x8 x9 x10 x11 x12 x13 x14 x15 x16 x17 x18 x19
         x20 x21,
    l = [x1; x2; x3; x4; x5; x6; x7; x8; x9; x10; x11; x12; x13; x14; x15;
         x16; x17; x18; x19; x20; x21].
Proof.
  intros H.
  do 21 (destruct l as [| ? l]; [discriminate H |]).
  destruct l; [| discriminate H].
  repeat eexists.
Qed.

Section SimulatorFacts.

Context {G : Generator}.

(** ** The stream of draws *)

Lemma draws_S (n : nat) (s : RandomState) :
  draws (S n) s =
  (fst (np_random_choice choice_values choice_p s)
     :: fst (draws n (snd (np_random_choice choice_values choice_p s))),
   snd (draws n (snd (np_random_choice choice_values choice_p s)))).
Proof.
  simpl. destruct (np_random_choice choice_values choice_p s) as [x s'].
  simpl. now destruct (draws n s').
Qed.

Lemma draws_length (n : nat) (s : RandomState) :
  List.length (fst (draws n s)) = n.
Proof.
  revert s. induction n as [| n IH]; intros s.
  - reflexivity.
  - rewrite draws_S. simpl. now rewrite IH.
Qed.

Lemma draws_add (n m : nat) (s : RandomState) :
  draws (n + m) s =
  ((fst (draws n s) ++ fst (draws m (snd (draws n s))))%list,
   snd (draws m (snd (draws n s)))).
Proof.
  revert s. induction n as [| n IH]; intros s.
  - simpl. now destruct (draws m s).
  - change (S n + m)%nat with (S (n + m)). rewrite !draws_S, IH. reflexivity.
Qed.

Lemma draws_firstn (n m : nat) (s : RandomState) :
  firstn n (fst (draws (n + m) s)) = fst (draws n s).
Proof.
  rewrite draws_add. simpl.
  rewrite firstn_app, draws_length, Nat.sub_diag. simpl.
  rewrite app_nil_r. apply firstn_all2. now rewrite draws_length.
Qed.

Lemma draws_skipn (n m : nat) (s : RandomState) :
  skipn n (fst (draws (n + m) s)) = fst (draws m (snd (draws n s))).
Proof.
  rewrite draws_add. simpl.
  rewrite skipn_app, draws_length, Nat.sub_diag. simpl.
  rewrite skipn_all2; [reflexivity | now rewrite draws_length].
Qed.

(** ** One row *)

Lemma question_body_eval (group time : string) (row : dict) (q : string)
  (s : RandomState) :
  question_body group time row q s =
  (inr (dict_set row q
          (VInt (stored_score group time
                   (fst (np_random_choice choice_values choice_p s))))),
   snd (np_random_choice choice_values choice_p s)).
Proof.
  unfold question_body, bind, choice, stored_score, treated.
  destruct (np_random_choice choice_values choice_p s) as [x s'].
  cbn [fst snd].
  destruct (String.eqb group "intervention" && negb (String.eqb time "baseline"))%bool.
  - rewrite apply_treatment_effect_single. reflexivity.
  - reflexivity.
Qed.

Lemma foldM_question_body (group time : string) (qs : list string) :
  forall (row : dict) (s : RandomState),
    foldM (question_body group time) qs row s =
    (inr (fold_left
            (fun r qx => dict_set r (fst qx)
                           (VInt (stored_score group time (snd qx))))
            (combine qs (fst (draws (List.length qs) s))) row),
     snd (draws (List.length qs) s)).
Proof.
  induction qs as [| q qs IH]; intros row s.
  - reflexivity.
  - cbn [foldM List.length]. rewrite draws_S.
    erewrite bind_eval by apply question_body_eval.
    rewrite IH. reflexivity.
Qed.

Lemma make_row_closed (group full_id time : string) (s : RandomState) :
  make_row group full_id time s =
  (inr (row_closed (stored_score group time) group full_id time
          (fst (draws 21 s))),
   snd (draws 21 s)).
Proof.
  unfold make_row.
  erewrite bind_eval by apply foldM_question_body.
  change (List.length questions) with 21%nat.
  destruct (list_of_length_21 _ (draws_length 21 s))
    as (x1 & x2 & x3 & x4 & x5 & x6 & x7 & x8 & x9 & x10 & x11 & x12 & x13
        & x14 & x15 & x16 & x17 & x18 & x19 & x20 & x21 & E).
  rewrite E. generalize (snd (draws 21 s)) as s'. intros s'.
  generalize (stored_score group time) as f. intros f.
  vm_compute. reflexivity.
Qed.

(** ** The loops *)

(** A loop whose body takes [k] draws and appends what [F] makes of them
    takes [k] draws per element and appends chunk after chunk. *)
Lemma foldM_chunked {A R : Type} (body : list R -> A -> M RandomState (list R))
  (F : A -> list Z -> list R) (k : nat) :
  (forall x d s,
      body d x s = (inr (d ++ F x (fst (draws k s)))%list, snd (draws k s))) ->
  forall xs d s,
    foldM body xs d s =
    (inr (d ++ chunked F k xs (fst (draws (List.length xs * k) s)))%list,
     snd (draws (List.length xs * k) s)).
Proof.
  intros Hbody. induction xs as [| x xs IH]; intros d s.
  - simpl. now rewrite app_nil_r.
  - cbn [foldM List.length chunked Nat.mul].
    erewrite bind_eval by apply Hbody.
    rewrite IH, draws_firstn, draws_skipn, <- app_assoc, draws_add.
    reflexivity.
Qed.

Lemma time_body_eval (group full_id : string) (data : list dict)
  (time : string) (s : RandomState) :
  time_body group full_id data time s =
  (inr (data ++ [row_closed (stored_score group time) group full_id time
                   (fst (draws 21 s))])%list,
   snd (draws 21 s)).
Proof.
  unfold time_body. erewrite bind_eval by apply make_row_closed. reflexivity.
Qed.

Lemma subject_body_eval (group : string) (data : list dict) (subject_id : Z)
  (s : RandomState) :
  subject_body group data subject_id s =
  (inr (data ++ subject_rows group subject_id (fst (draws 105 s)))%list,
   snd (draws 105 s)).
Proof.
  unfold subject_body, subject_rows.
  rewrite (foldM_chunked _
             (fun time c' =>
                [row_closed (stored_score group time) group
                   (format_full_id group subject_id) time c'])
             21 (fun time d s => time_body_eval group _ d time s)).
  reflexivity.
Qed.

Lemma group_body_eval (data : list dict) (group : string) (s : RandomState) :
  group_body data group s =
  (inr (data ++ group_rows group (fst (draws 2100 s)))%list,
   snd (draws 2100 s)).
Proof.
  unfold group_body, group_rows.
  rewrite (foldM_chunked _ (subject_rows group) 105
             (fun i d s => subject_body_eval group d i s)).
  reflexivity.
Qed.

Lemma generate_eval (s : RandomState) :
  generate s =
  (inr (chunked group_rows 2100 groups (fst (draws 4200 s))),
   snd (draws 4200 s)).
Proof.
  unfold generate.
  rewrite (foldM_chunked _ group_rows 2100 (fun g d s => group_body_eval d g s)).
  reflexivity.
Qed.
End SimulatorFacts.

Section Chunks.

Context {A R : Type}.

Lemma chunked_ext (F F' : A -> list Z -> list R) (k : nat) (xs : list A) :
  (forall x c, F x c = F' x c) ->
  forall l, chunked F k xs l = chunked F' k xs l.
Proof.
  intros H. induction xs as [| x xs IH]; intros l; simpl.
  - reflexivity.
  - now rewrite H, IH.
Qed.

Lemma chunked_firstn (F : A -> list Z -> list R) (k : nat) (xs : list A) :
  forall l, chunked F k xs (firstn (List.length xs * k) l) = chunked F k xs l.
Proof.
  induction xs as [| x xs IH]; intros l.
  - reflexivity.
  - cbn [chunked List.length Nat.mul].
    rewrite firstn_firstn, Nat.min_l by lia.
    rewrite skipn_firstn_comm.
    replace (k + List.length xs * k - k)%nat with (List.length xs * k)%nat by lia.
    now rewrite IH.
Qed.

Lemma chunked_app (F : A -> list Z -> list R) (k : nat) (xs ys : list A) :
  forall l,
    chunked F k (xs ++ ys) l =
    (chunked F k xs l ++ chunked F k ys (skipn (List.length xs * k) l))%list.
Proof.
  induction xs as [| x xs IH]; intros l.
  - reflexivity.
  - cbn [app chunked List.length Nat.mul].
    rewrite IH, <- app_assoc, skipn_skipn.
    now replace (List.length xs * k + k)%nat with (k + List.length xs * k)%nat by lia.
Qed.

Lemma chunked_singletons_length (f : A -> list Z -> R) (k : nat) (xs : list A) :
  forall l, List.length (chunked (fun x c => [f x c]) k xs l) = List.length xs.
Proof.
  induction xs as [| x xs IH]; intros l; simpl; [reflexivity | now rewrite IH].
Qed.

Lemma chunked_singletons_nth (f : A -> list Z -> R) (k : nat) (xs : list A) :
  forall (n : nat) (l : list Z),
    nth_error (chunked (fun x c => [f x c]) k xs l) n =
    option_map (fun x => f x (firstn k (skipn (n * k) l))) (nth_error xs n).
Proof.
  induction xs as [| x xs IH]; intros n l.
  - now destruct n.
  - destruct n as [| n].
    + reflexivity.
    + cbn [chunked app nth_error Nat.mul]. rewrite IH, skipn_skipn.
      now replace (n * k + k)%nat with (k + n * k)%nat by lia.
Qed.

End Chunks.

Lemma chunked_map {A B R : Type} (g : A -> B) (F : B -> list Z -> list R)
  (k : nat) (xs : list A) :
  forall l, chunked F k (map g xs) l = chunked (fun x => F (g x)) k xs l.
Proof.
  induction xs as [| x xs IH]; intros l; simpl; [reflexivity | now rewrite IH].
Qed.

Lemma chunked_nested {A B R : Type} (F : A -> B -> list Z -> list R)
  (k : nat) (xs : list A) (ys : list B) :
  forall l,
    chunked (fun x c => chunked (F x) k ys c) (List.length ys * k) xs l =
    chunked (fun p => F (fst p) (snd p)) k (list_prod xs ys) l.
Proof.
  induction xs as [| x xs IH]; intros l.
  - reflexivity.
  - cbn [chunked list_prod].
    rewrite chunked_app, chunked_firstn, chunked_map, length_map, IH.
    reflexivity.
Qed.

Lemma groups_rows_plan (l : list Z) :
  chunked group_rows 2100 groups l = rows_of_draws l.
Proof.
  change (chunked group_rows 2100 groups l)
    with (chunked
            (fun group c =>
               chunked (subject_rows group) 105 (py_range 1 (n_per_group + 1)) c)
            (List.length (py_range 1 (n_per_group + 1)) * 105) groups l).
  rewrite chunked_nested.
  change (chunked (fun p => subject_rows (fst p) (snd p)) 105
            (list_prod groups (py_range 1 (n_per_group + 1))) l)
    with (chunked
            (fun p c =>
               chunked (fun time c' => [plan_row (fst p, snd p, time) c'])
                 21 timepoints c)
            (List.length timepoints * 21)
            (list_prod groups (py_range 1 (n_per_group + 1))) l).
  rewrite chunked_nested.
  apply chunked_ext. intros [[group subject_id] time] c. reflexivity.
Qed.

(** ** The data set as a function of the draws *)

Section SimulatedData.

Context {G : Generator}.

Lemma generate_rows (s : RandomState) :
  generate s = (inr (rows_of_draws (fst (draws 4200 s))), snd (draws 4200 s)).
Proof. rewrite generate_eval. now rewrite groups_rows_plan. Qed.

Lemma simulate_rows :
  simulate =
  (inr (rows_of_draws (fst (draws 4200 (np_random_seed 42)))),
   snd (draws 4200 (np_random_seed 42))).
Proof. apply generate_rows. Qed.

Lemma draws_contract (n : nat) :
  choice_contract G ->
  forall s, Forall (fun x => In x choice_values) (fst (draws n s)).
Proof.
  intros HG. induction n as [| n IH]; intros s.
  - constructor.
  - rewrite draws_S. constructor.
    + apply HG. discriminate.
    + apply IH.
Qed.

End SimulatedData.

Lemma plan_length : List.length plan = 200%nat.
Proof. reflexivity. Qed.

Lemma rows_of_draws_length (l : list Z) :
  List.length (rows_of_draws l) = 200%nat.
Proof. unfold rows_of_draws. now rewrite chunked_singletons_length. Qed.

Lemma rows_of_draws_nth (l : list Z) (n : nat) :
  nth_error (rows_of_draws l) n =
  option_map (fun p => plan_row p (firstn 21 (skipn (n * 21) l)))
    (nth_error plan n).
Proof. apply chunked_singletons_nth. Qed.

Lemma rows_of_draws_In (l : list Z) (row : dict) :
  In row (rows_of_draws l) ->
  exists n p, nth_error plan n = Some p
              /\ row = plan_row p (firstn 21 (skipn (n * 21) l)).
Proof.
  intros H. apply In_nth_error in H. destruct H as [n Hn].
  rewrite rows_of_draws_nth in Hn.
  destruct (nth_error plan n) as [p |] eqn:E; [| discriminate].
  exists n, p. split; [exact E | now inversion Hn].
Qed.

Lemma chunk_length (l : list Z) (n : nat) :
  List.length l = 4200%nat -> (n < 200)%nat ->
  List.length (firstn 21 (skipn (n * 21) l)) = 21%nat.
Proof. intros Hl Hn. rewrite length_firstn, length_skipn. lia. Qed.

Lemma chunk_nth (l : list Z) (n j : nat) :
  (j < 21)%nat ->
  nth j (firstn 21 (skipn (n * 21) l)) 0 = nth (n * 21 + j) l 0.
Proof.
  intros Hj. rewrite nth_firstn.
  destruct (Nat.ltb_spec j 21) as [_ | H]; [| lia].
  now rewrite nth_skipn.
Qed.

Lemma chunk_Forall (P : Z -> Prop) (l : list Z) (n : nat) :
  Forall P l -> Forall P (firstn 21 (skipn (n * 21) l)).
Proof.
  intros H.
  rewrite <- (firstn_skipn (n * 21) l) in H. apply Forall_app in H.
  destruct H as [_ H].
  rewrite <- (firstn_skipn 21 (skipn (n * 21) l)) in H. apply Forall_app in H.
  tauto.
Qed.

Lemma plan_nth_lt (n : nat) (p : string * Z * string) :
  nth_error plan n = Some p -> (n < 200)%nat.
Proof.
  intros H. rewrite <- plan_length. apply nth_error_Some. now rewrite H.
Qed.

(** ** What a completed row holds *)

Lemma row_closed_id (f : Z -> Z) (group full_id time : string) (c : list Z) :
  dict_get (row_closed f group full_id time c) "id" = Some (VStr full_id)
  /\ dict_get (row_closed f group full_id time c) "group" = Some (VStr group)
  /\ dict_get (row_closed f group full_id time c) "timepoint" = Some (VStr time).
Proof. repeat split. Qed.

Lemma row_closed_item (f : Z -> Z) (group full_id time : string) (c : list Z)
  (j : nat) :
  List.length c = 21%nat -> (j < 21)%nat ->
  dict_get (row_closed f group full_id time c) (nth j questions "")
  = Some (VInt (f (nth j c 0))).
Proof.
  intros Hc Hj.
  destruct (list_of_length_21 c Hc)
    as (x1 & x2 & x3 & x4 & x5 & x6 & x7 & x8 & x9 & x10 & x11 & x12 & x13
        & x14 & x15 & x16 & x17 & x18 & x19 & x20 & x21 & ->).
  do 21 (destruct j as [| j]; [reflexivity |]). lia.
Qed.

Lemma questions_nth (q : string) :
  In q questions -> exists j, (j < 21)%nat /\ q = nth j questions "".
Proof.
  intros H. destruct (In_nth _ _ "" H) as (j & Hj & E).
  exists j. split; [exact Hj | now symmetry].
Qed.

Lemma row_closed_totals (f : Z -> Z) (group full_id time : string) (c : list Z) :
  List.length c = 21%nat ->
  dict_get (row_closed f group full_id time c) "DASS_Anxiety"
  = Some (VInt (total_at f [1; 3; 6; 8; 14; 18; 19]%nat c))
  /\ dict_get (row_closed f group full_id time c) "DASS_Depression"
     = Some (VInt (total_at f [2; 4; 9; 12; 15; 16; 20]%nat c))
  /\ dict_get (row_closed f group full_id time c) "DASS_Stress"
     = Some (VInt (total_at f [0; 5; 7; 10; 11; 13; 17]%nat c)).
Proof.
  intros Hc.
  destruct (list_of_length_21 c Hc)
    as (x1 & x2 & x3 & x4 & x5 & x6 & x7 & x8 & x9 & x10 & x11 & x12 & x13
        & x14 & x15 & x16 & x17 & x18 & x19 & x20 & x21 & ->).
  repeat split.
Qed.

(** ** Ranges of the stored scores *)

Lemma choice_values_range (x : Z) : In x choice_values <-> 0 <= x <= 3.
Proof. unfold choice_values. simpl. lia. Qed.

Lemma attenuate_on_draws (x : Z) :
  In x choice_values -> 0 <= attenuate x <= 2 /\ attenuate x <= x.
Proof.
  intros H. simpl in H.
  destruct H as [<- | [<- | [<- | [<- | []]]]]; vm_compute; intuition discriminate.
Qed.

Lemma stored_score_range (group time : string) (x : Z) :
  In x choice_values -> 0 <= stored_score group time x <= 3.
Proof.
  intros H. unfold stored_score. destruct (treated group time).
  - apply attenuate_range.
  - now apply choice_values_range.
Qed.

Lemma Forall_nth_default (P : Z -> Prop) (c : list Z) (j : nat) :
  Forall P c -> (j < List.length c)%nat -> P (nth j c 0).
Proof. intros H Hj. rewrite Forall_forall in H. apply H. now apply nth_In. Qed.

Lemma total_at_bounds (f : Z -> Z) (hi : Z) (c : list Z) (positions : list nat) :
  0 <= hi ->
  (forall j, In j positions -> 0 <= f (nth j c 0) <= hi) ->
  0 <= total_at f positions c <= hi * Z.of_nat (List.length positions).
Proof.
  intros Hhi H. unfold total_at.
  assert (Hgen : forall acc lo',
             lo' <= acc ->
             lo' <= fold_left Z.add (map (fun i => f (nth i c 0)) positions) acc
             /\ fold_left Z.add (map (fun i => f (nth i c 0)) positions) acc
                <= acc + hi * Z.of_nat (List.length positions)).
  { induction positions as [| j js IH]; intros acc lo' Hacc.
    - simpl. lia.
    - cbn [map fold_left List.length].
      assert (Hj : 0 <= f (nth j c 0) <= hi) by (apply H; now left).
      destruct (IH (fun i Hi => H i (or_intror Hi)) (acc + f (nth j c 0)) lo')
        as [H1 H2]; [lia |].
      split; [exact H1 |]. rewrite Nat2Z.inj_succ. lia. }
  destruct (Hgen 0 0) as [H1 H2]; lia.
Qed.

(** A row of the data set is [plan_row] of its place in the plan and of its
    own 21 draws, each of which the generator took from the candidates. *)
Lemma simulated_row_inv {G : Generator} (row : dict) :
  choice_contract G ->
  In row (rows_of_draws (fst (draws 4200 (np_random_seed 42)))) ->
  exists group subject_id time c,
    In (group, subject_id, time) plan
    /\ List.length c = 21%nat
    /\ Forall (fun x => In x choice_values) c
    /\ row = row_closed (stored_score group time) group
               (format_full_id group subject_id) time c.
Proof.
  intros HG Hrow.
  destruct (rows_of_draws_In _ _ Hrow) as (n & [[group subject_id] time] & Hp & ->).
  exists group, subject_id, time, (firstn 21 (skipn (n * 21) (fst (draws 4200 (np_random_seed 42))))).
  split; [now apply nth_error_In with n |].
  split; [apply chunk_length; [apply draws_length | now apply plan_nth_lt with (group, subject_id, time)] |].
  split; [apply chunk_Forall; now apply draws_contract |].
  reflexivity.
Qed.

Lemma lcg_contract : choice_contract lcg.
Proof.
  intros a p s Ha. unfold np_random_choice, lcg, lcg_choice. cbn [fst].
  apply nth_In.
  assert (Hlen : 0 < Z.of_nat (List.length a)) by (destruct a; [congruence | simpl; lia]).
  pose proof (Z.mod_pos_bound
                (((s * 1103515245 + 12345) mod 2147483648) / 65536)
                (Z.of_nat (List.length a)) Hlen).
  lia.
Qed.

(** C5. Every stored item score of every generated observation (both
    groups, all timepoints, all 21 items) is an integer between 0 and 3,
    provided the generator hands out one of the candidates it was given. *)
Theorem item_scores_in_range (G : Generator) :
  choice_contract G ->
  exists data,
    fst simulate = inr data
    /\ forall row, In row data ->
       forall q, In q questions ->
       exists x, dict_get row q = Some (VInt x) /\ 0 <= x <= 3.
Proof.
  intros HG. rewrite simulate_rows. eexists. split; [reflexivity |].
  intros row Hrow q Hq.
  destruct (simulated_row_inv row HG Hrow)
    as (group & subject_id & time & c & _ & Hc & Hin & ->).
  destruct (questions_nth q Hq) as (j & Hj & ->).
  eexists. split; [now apply row_closed_item |].
  apply stored_score_range.
  apply (Forall_nth_default _ c j Hin). now rewrite Hc.
Qed.

Lemma item_scores_in_range_witness :
  choice_contract lcg
  /\ exists data,
       fst (@simulate lcg) = inr data
       /\ forall row, In row data ->
          forall q, In q questions ->
          exists x, dict_get row q = Some (VInt x) /\ 0 <= x <= 3.
Proof.
  split.
  - exact lcg_contract.
  - exact (item_scores_in_range lcg lcg_contract).
Defined.

(** ** Subscale totals *)

Lemma subscale_positions_items (name : string) (items : list string) :
  In (name, items) subscales ->
  items = map (fun j => nth j questions "") (subscale_positions name)
  /\ List.length (subscale_positions name) = 7%nat
  /\ Forall (fun j => (j < 21)%nat) (subscale_positions name).
Proof.
  intros H. simpl in H.
  destruct H as [H | [H | [H | []]]]; inversion H; subst; clear H;
    (split; [reflexivity | split; [reflexivity |]]);
    repeat constructor.
Qed.

Lemma row_closed_subscale (f : Z -> Z) (group full_id time : string)
  (c : list Z) (name : string) (items : list string) :
  List.length c = 21%nat ->
  In (name, items) subscales ->
  Forall2 (fun q x => dict_get (row_closed f group full_id time c) q = Some (VInt x))
    items (map (fun j => f (nth j c 0)) (subscale_positions name))
  /\ dict_get (row_closed f group full_id time c) name
     = Some (VInt (total_at f (subscale_positions name) c)).
Proof.
  intros Hc H.
  destruct (subscale_positions_items name items H) as (-> & _ & Hpos).
  split.
  - clear H. induction Hpos as [| j js Hj _ IH]; cbn [map]; constructor.
    + now apply row_closed_item.
    + exact IH.
  - destruct (row_closed_totals f group full_id time c Hc) as (Ha & Hd & Hs).
    simpl in H.
    destruct H as [H | [H | [H | []]]]; inversion H; subst; assumption.
Qed.

(** C3. Every subscale total of every generated observation is the sum of
    the 7 item scores that the observation stores under the subscale's item
    list, and it is an integer between 0 and 21. *)
Theorem subscale_totals_are_item_sums (G : Generator) :
  choice_contract G ->
  exists data,
    fst simulate = inr data
    /\ forall row, In row data ->
       forall name items, In (name, items) subscales ->
       exists xs,
         List.length items = 7%nat
         /\ Forall2 (fun q x => dict_get row q = Some (VInt x)) items xs
         /\ dict_get row name = Some (VInt (fold_left Z.add xs 0))
         /\ 0 <= fold_left Z.add xs 0 <= 21.
Proof.
  intros HG. rewrite simulate_rows. eexists. split; [reflexivity |].
  intros row Hrow name items Hsub.
  destruct (simulated_row_inv row HG Hrow)
    as (group & subject_id & time & c & _ & Hc & Hin & ->).
  destruct (row_closed_subscale (stored_score group time) group
              (format_full_id group subject_id) time c name items Hc Hsub)
    as [Hitems Htotal].
  destruct (subscale_positions_items name items Hsub) as (Eitems & Hlen & Hpos).
  exists (map (fun j => stored_score group time (nth j c 0)) (subscale_positions name)).
  split; [rewrite Eitems, length_map; exact Hlen |].
  split; [exact Hitems |].
  split; [exact Htotal |].
  change (fold_left Z.add
            (map (fun j => stored_score group time (nth j c 0))
               (subscale_positions name)) 0)
    with (total_at (stored_score group time) (subscale_positions name) c).
  replace 21 with (3 * Z.of_nat (List.length (subscale_positions name)))
    by (rewrite Hlen; reflexivity).
  apply total_at_bounds; [lia |].
  intros j Hj. apply stored_score_range.
  apply (Forall_nth_default _ c j Hin). rewrite Hc.
  rewrite Forall_forall in Hpos. now apply Hpos.
Qed.

Lemma subscale_totals_are_item_sums_witness :
  choice_contract lcg
  /\ exists data,
       fst (@simulate lcg) = inr data
       /\ forall row, In row data ->
          forall name items, In (name, items) subscales ->
          exists xs,
            List.length items = 7%nat
            /\ Forall2 (fun q x => dict_get row q = Some (VInt x)) items xs
            /\ dict_get row name = Some (VInt (fold_left Z.add xs 0))
            /\ 0 <= fold_left Z.add xs 0 <= 21.
Proof.
  split.
  - exact lcg_contract.
  - exact (subscale_totals_are_item_sums lcg lcg_contract).
Defined.

(** ** The treatment rule *)

Lemma treated_intervention (time : string) :
  time <> "baseline" -> treated "intervention" time = true.
Proof.
  intros H. unfold treated. apply String.eqb_neq in H. now rewrite H.
Qed.

Lemma treated_control (time : string) : treated "control" time = false.
Proof. reflexivity. Qed.

Lemma treated_baseline (group : string) : treated group "baseline" = false.
Proof. unfold treated. simpl. apply andb_false_r. Qed.

(** C9. An intervention-group observation after baseline stores no item
    score above 2: the attenuation maps the draws 0, 1, 2, 3 to 0, 1, 2, 2, so
    it never exceeds the draw, and each subscale total of such an observation
    is at most 14. *)
Theorem treated_rows_at_most_two (G : Generator) :
  choice_contract G ->
  apply_treatment_effect choice_values effect_size_default = [0; 1; 2; 2]
  /\ (forall x, In x choice_values ->
      exists y, apply_treatment_effect [x] effect_size_default = [y] /\ y <= x)
  /\ exists data,
       fst simulate = inr data
       /\ forall row time, In row data ->
          dict_get row "group" = Some (VStr "intervention") ->
          dict_get row "timepoint" = Some (VStr time) ->
          time <> "baseline" ->
          (forall q, In q questions ->
             exists x, dict_get row q = Some (VInt x) /\ 0 <= x <= 2)
          /\ (forall name items, In (name, items) subscales ->
                exists z, dict_get row name = Some (VInt z) /\ 0 <= z <= 14).
Proof.
  intros HG. split; [reflexivity |]. split.
  - intros x Hx. exists (attenuate x).
    split; [apply apply_treatment_effect_single | now apply attenuate_on_draws].
  - rewrite simulate_rows. eexists. split; [reflexivity |].
    intros row time Hrow Hgroup Htime Hnb.
    destruct (simulated_row_inv row HG Hrow)
      as (group & subject_id & time' & c & _ & Hc & Hin & ->).
    destruct (row_closed_id (stored_score group time') group
                (format_full_id group subject_id) time' c) as (_ & Eg & Et).
    rewrite Eg in Hgroup. rewrite Et in Htime.
    inversion Hgroup; subst group. inversion Htime; subst time'.
    assert (Hstored : forall j, (j < 21)%nat ->
               0 <= stored_score "intervention" time (nth j c 0) <= 2).
    { intros j Hj. unfold stored_score. rewrite treated_intervention by assumption.
      apply attenuate_on_draws.
      apply (Forall_nth_default _ c j Hin). now rewrite Hc. }
    split.
    + intros q Hq. destruct (questions_nth q Hq) as (j & Hj & ->).
      eexists. split; [now apply row_closed_item | now apply Hstored].
    + intros name items Hsub.
      destruct (row_closed_subscale (stored_score "intervention" time)
                  "intervention" (format_full_id "intervention" subject_id)
                  time c name items Hc Hsub) as [_ Htotal].
      destruct (subscale_positions_items name items Hsub) as (_ & Hlen & Hpos).
      eexists. split; [exact Htotal |].
      replace 14 with (2 * Z.of_nat (List.length (subscale_positions name)))
        by (rewrite Hlen; reflexivity).
      apply total_at_bounds; [lia |].
      intros j Hj. apply Hstored. rewrite Forall_forall in Hpos. now apply Hpos.
Qed.

Lemma treated_rows_at_most_two_witness :
  choice_contract lcg
  /\ exists row time,
       nth_error
         (match fst (@simulate lcg) with inr data => data | inl _ => [] end) 1
       = Some row
       /\ dict_get row "group" = Some (VStr "intervention")
       /\ dict_get row "timepoint" = Some (VStr time)
       /\ time <> "baseline"
       /\ (forall q, In q questions ->
             exists x, dict_get row q = Some (VInt x) /\ 0 <= x <= 2)
       /\ (forall name items, In (name, items) subscales ->
             exists z, dict_get row name = Some (VInt z) /\ 0 <= z <= 14).
Proof.
  split; [exact lcg_contract |].
  destruct (treated_rows_at_most_two lcg lcg_contract) as (_ & _ & data & E & H).
  rewrite E.
  assert (Hd : exists row, nth_error data 1 = Some row
                           /\ dict_get row "group" = Some (VStr "intervention")
                           /\ dict_get row "timepoint" = Some (VStr "3_months")).
  { assert (E' : inr data = fst (@simulate lcg)) by (now rewrite E).
    vm_compute in E'. inversion E'. eexists. repeat split. }
  destruct Hd as (row & Hn & Hg & Ht).
  exists row, "3_months".
  split; [exact Hn |]. split; [exact Hg |]. split; [exact Ht |].
  split; [discriminate |].
  apply (H row "3_months"); [now apply nth_error_In with 1%nat | exact Hg | exact Ht | discriminate].
Defined.

Lemma rows_of_draws_rule (l : list Z) (n j : nat) (row : dict) :
  List.length l = 4200%nat ->
  nth_error (rows_of_draws l) n = Some row -> (j < 21)%nat ->
  exists group subject_id time,
    row = row_closed (stored_score group time) group
            (format_full_id group subject_id) time
            (firstn 21 (skipn (n * 21) l))
    /\ nth_error plan n = Some (group, subject_id, time)
    /\ dict_get row (nth j questions "")
       = Some (VInt (stored_score group time (nth (n * 21 + j) l 0))).
Proof.
  intros Hl Hn Hj.
  rewrite rows_of_draws_nth in Hn.
  destruct (nth_error plan n) as [[[group subject_id] time] |] eqn:Hp;
    [| discriminate].
  pose proof (plan_nth_lt n _ Hp) as Hlt.
  pose proof (chunk_length l n Hl Hlt) as Hc.
  pose proof (chunk_nth l n j Hj) as Hnth.
  revert Hn Hc Hnth. generalize (firstn 21 (skipn (n * 21) l)) as c.
  intros c Hn Hc Hnth.
  exists group, subject_id, time.
  assert (Erow : row = row_closed (stored_score group time) group
                         (format_full_id group subject_id) time c)
    by (cbn [option_map] in Hn; unfold plan_row in Hn; congruence).
  split; [exact Erow |]. split; [reflexivity |].
  rewrite Erow, row_closed_item by assumption. now rewrite Hnth.
Qed.

(** C2. In the [n]-th generated observation the [j]-th item score comes from
    draw number [21 n + j] after seeding: for the intervention group after baseline it is
    the draw times (1 - 0.2), rounded to the nearest integer, clamped into
    [0,3] and cast to an integer (which is what [apply_treatment_effect]
    returns for it); for the control group, and at baseline, it is the draw
    itself. *)
Theorem stored_scores_follow_treatment_rule (G : Generator) :
  exists data,
    fst simulate = inr data
    /\ forall n row j,
       nth_error data n = Some row -> (j < 21)%nat ->
       (forall time,
           dict_get row "group" = Some (VStr "intervention") ->
           dict_get row "timepoint" = Some (VStr time) ->
           time <> "baseline" ->
           dict_get row (nth j questions "")
           = Some (VInt (Z.max 0 (Z.min 3
                           (rint (inject_Z (nth_draw (n * 21 + j)) * (1 - (2 # 10)))))))
           /\ apply_treatment_effect [nth_draw (n * 21 + j)] effect_size_default
              = [Z.max 0 (Z.min 3
                    (rint (inject_Z (nth_draw (n * 21 + j)) * (1 - (2 # 10)))))])
       /\ (dict_get row "group" = Some (VStr "control")
           \/ dict_get row "timepoint" = Some (VStr "baseline") ->
           dict_get row (nth j questions "") = Some (VInt (nth_draw (n * 21 + j)))).
Proof.
  rewrite simulate_rows. unfold nth_draw.
  pose proof (draws_length 4200 (np_random_seed 42)) as Hl. revert Hl.
  generalize (fst (draws 4200 (np_random_seed 42))) as l. intros l Hl.
  eexists. split; [reflexivity |].
  intros n row j Hn Hj.
  destruct (rows_of_draws_rule l n j row Hl Hn Hj)
    as (group & subject_id & time' & Erow & _ & Hq).
  destruct (row_closed_id (stored_score group time') group
              (format_full_id group subject_id) time'
              (firstn 21 (skipn (n * 21) l)))
    as (_ & Eg & Et).
  rewrite <- Erow in Eg, Et. clear Erow Hn.
  generalize dependent (nth (n * 21 + j) l 0). intros base_score Hq.
  split.
  - intros time Hgroup Htime Hnb. rewrite Eg in Hgroup. rewrite Et in Htime.
    inversion Hgroup; subst group. inversion Htime; subst time'.
    split; [| apply apply_treatment_effect_single].
    rewrite Hq. unfold stored_score. now rewrite treated_intervention.
  - intros [Hgroup | Htime].
    + rewrite Eg in Hgroup. inversion Hgroup; subst group. exact Hq.
    + rewrite Et in Htime. inversion Htime; subst time'.
      rewrite Hq. unfold stored_score. now rewrite treated_baseline.
Qed.

Lemma stored_scores_follow_treatment_rule_witness :
  exists data row,
    fst (@simulate lcg) = inr data
    /\ nth_error data 1 = Some row
    /\ dict_get row "group" = Some (VStr "intervention")
    /\ dict_get row "timepoint" = Some (VStr "3_months")
    /\ dict_get row (nth 0 questions "")
       = Some (VInt (Z.max 0 (Z.min 3
                       (rint (inject_Z (@nth_draw lcg (1 * 21 + 0)) * (1 - (2 # 10))))))).
Proof.
  destruct (stored_scores_follow_treatment_rule lcg) as (data & E & H).
  assert (Hd : data = lcg_data) by (unfold lcg_data; now rewrite E).
  exists data, (nth 1 data []).
  assert (Hn : nth_error data 1 = Some (nth 1 data []))
    by (rewrite Hd; vm_compute; reflexivity).
  assert (Hg : dict_get (nth 1 data []) "group" = Some (VStr "intervention"))
    by (rewrite Hd; vm_compute; reflexivity).
  assert (Ht : dict_get (nth 1 data []) "timepoint" = Some (VStr "3_months"))
    by (rewrite Hd; vm_compute; reflexivity).
  split; [exact E |]. split; [exact Hn |]. split; [exact Hg |].
  split; [exact Ht |].
  assert (Hj : (0 < 21)%nat) by lia.
  destruct (H 1%nat (nth 1 data []) 0%nat Hn Hj) as [Hrule _].
  apply (Hrule "3_months" Hg Ht). discriminate.
Defined.

(** ** The panel *)

Lemma chunked_singletons_keys {A R K : Type} (f : A -> list Z -> R)
  (g : R -> K) (h : A -> K) (k : nat) (xs : list A) :
  (forall x c, g (f x c) = h x) ->
  forall l, map g (chunked (fun x c => [f x c]) k xs l) = map h xs.
Proof.
  intros H. induction xs as [| x xs IH]; intros l; simpl.
  - reflexivity.
  - now rewrite H, IH.
Qed.

Lemma rows_of_draws_keys (l : list Z) :
  map row_key (rows_of_draws l) = map key_of_strings (map plan_key plan).
Proof.
  rewrite map_map. apply chunked_singletons_keys.
  intros [[group subject_id] time] c. reflexivity.
Qed.

Lemma all_distinct_NoDup (l : list (string * string)) :
  all_distinct l = true -> NoDup l.
Proof.
  induction l as [| k l IH]; intros H.
  - constructor.
  - simpl in H. apply andb_true_iff in H. destruct H as [Hk Hl].
    constructor; [| now apply IH].
    intros Hin. apply negb_true_iff in Hk.
    assert (Hex : existsb (fun k' => String.eqb (fst k) (fst k')
                                     && String.eqb (snd k) (snd k'))%bool l = true).
    { apply existsb_exists. exists k. split; [exact Hin |].
      now rewrite !String.eqb_refl. }
    congruence.
Qed.

Lemma key_of_strings_injective (a b : string * string) :
  key_of_strings a = key_of_strings b -> a = b.
Proof.
  destruct a, b. unfold key_of_strings. simpl. congruence.
Qed.

Lemma has_key_count (id time : string) (data : list dict) :
  forall keys,
    map row_key data = map key_of_strings keys ->
    List.length (filter (has_key id time) data) = count_key keys id time.
Proof.
  unfold count_key.
  induction data as [| row data IH]; intros [| k keys] H; try discriminate.
  - reflexivity.
  - cbn [map] in H. injection H as Hid Htime Hrest.
    cbn [filter].
    assert (E : has_key id time row
                = (String.eqb (fst k) id && String.eqb (snd k) time)%bool).
    { unfold has_key. rewrite Hid, Htime. reflexivity. }
    rewrite E.
    destruct (String.eqb (fst k) id && String.eqb (snd k) time)%bool;
      cbn [List.length]; now rewrite (IH keys Hrest).
Qed.

Lemma plan_keys_balanced :
  forallb (fun k =>
             forallb (fun time =>
                        Nat.eqb (count_key (map plan_key plan) (fst k) time) 1)
               timepoints)
    (map plan_key plan) = true.
Proof. vm_compute. reflexivity. Qed.

(** C4. A run generates exactly 200 rows (2 groups x 20 subjects x 5
    timepoints); no (id, timepoint) pair occurs twice; and every subject id
    that occurs has exactly one row for each of the 5 timepoints. *)
Theorem balanced_panel (G : Generator) :
  exists data,
    fst simulate = inr data
    /\ List.length data = 200%nat
    /\ List.length data
       = (List.length groups * Z.to_nat n_per_group * List.length timepoints)%nat
    /\ NoDup (map row_key data)
    /\ forall id time,
       In (Some (VStr id)) (map (fun row => dict_get row "id") data) ->
       In time timepoints ->
       List.length (filter (has_key id time) data) = 1%nat.
Proof.
  rewrite simulate_rows. generalize (fst (draws 4200 (np_random_seed 42))) as l.
  intros l. eexists. split; [reflexivity |].
  split; [apply rows_of_draws_length |].
  split; [apply rows_of_draws_length |].
  split.
  - rewrite rows_of_draws_keys.
    apply Injective_map_NoDup.
    + intros a b. apply key_of_strings_injective.
    + apply all_distinct_NoDup. vm_compute. reflexivity.
  - intros id time Hid Htime.
    rewrite (has_key_count id time _ _ (rows_of_draws_keys l)).
    assert (Hin : In id (map fst (map plan_key plan))).
    { replace (map (fun row => dict_get row "id") (rows_of_draws l))
        with (map fst (map row_key (rows_of_draws l))) in Hid
        by (rewrite map_map; reflexivity).
      rewrite rows_of_draws_keys, !map_map in Hid.
      apply in_map_iff in Hid. destruct Hid as (p & Hp & Hin).
      cbn [key_of_strings fst] in Hp. injection Hp as <-.
      rewrite map_map. apply in_map_iff. now exists p. }
    apply in_map_iff in Hin. destruct Hin as (k & <- & Hk).
    pose proof plan_keys_balanced as Hb.
    rewrite forallb_forall in Hb. specialize (Hb k Hk).
    rewrite forallb_forall in Hb. specialize (Hb time Htime).
    now apply Nat.eqb_eq in Hb.
Qed.

Lemma balanced_panel_witness :
  exists data,
    fst (@simulate lcg) = inr data
    /\ In (Some (VStr "C07")) (map (fun row => dict_get row "id") data)
    /\ In "6_months" timepoints
    /\ List.length (filter (has_key "C07" "6_months") data) = 1%nat.
Proof.
  destruct (balanced_panel lcg) as (data & E & _ & _ & _ & H).
  assert (Hd : data = lcg_data) by (unfold lcg_data; now rewrite E).
  assert (Hid : In (Some (VStr "C07")) (map (fun row => dict_get row "id") data)).
  { apply in_map_iff. exists (nth 132 data []).
    split; [rewrite Hd; vm_compute; reflexivity |].
    apply nth_In. rewrite Hd. vm_compute. lia. }
  assert (Ht : In "6_months" timepoints) by (simpl; tauto).
  exists data. split; [exact E |]. split; [exact Hid |]. split; [exact Ht |].
  exact (H "C07" "6_months" Hid Ht).
Defined.

(** ** The item sets *)

Ltac nodup_Z := repeat (constructor; [simpl; lia |]); constructor.

(** C6. The item lists of the three subscales are the questions numbered
    {2,4,7,9,15,19,20}, {3,5,10,13,16,17,21} and {1,6,8,11,12,14,18}; the
    three sets have 7 elements each, are pairwise disjoint, and their union
    is exactly {1..21}, the numbers of the 21 questions. *)
Theorem subscale_items_partition :
  (dass_anxiety = map item_name anxiety_items
   /\ dass_depression = map item_name depression_items
   /\ dass_stress = map item_name stress_items
   /\ questions = map item_name (py_range 1 22))
  /\ (NoDup anxiety_items /\ List.length anxiety_items = 7%nat)
  /\ (NoDup depression_items /\ List.length depression_items = 7%nat)
  /\ (NoDup stress_items /\ List.length stress_items = 7%nat)
  /\ (forall i, ~ (In i anxiety_items /\ In i depression_items))
  /\ (forall i, ~ (In i anxiety_items /\ In i stress_items))
  /\ (forall i, ~ (In i depression_items /\ In i stress_items))
  /\ (forall i, In i anxiety_items \/ In i depression_items \/ In i stress_items
                <-> 1 <= i <= 21)
  /\ Permutation (dass_anxiety ++ dass_depression ++ dass_stress) questions.
Proof.
  split; [repeat split |].
  split; [split; [nodup_Z | reflexivity] |].
  split; [split; [nodup_Z | reflexivity] |].
  split; [split; [nodup_Z | reflexivity] |].
  split; [intros i; simpl; lia |].
  split; [intros i; simpl; lia |].
  split; [intros i; simpl; lia |].
  split; [intros i; simpl; lia |].
  apply (Permutation_map item_name
           (l := (anxiety_items ++ depression_items ++ stress_items)%list)
           (l' := py_range 1 22)).
  apply NoDup_Permutation_bis.
  - unfold anxiety_items, depression_items, stress_items. simpl. nodup_Z.
  - reflexivity.
  - intros i Hi. simpl in Hi. simpl. lia.
Qed.

(** ** The two rounding conventions *)

Lemma Qfloor_unique (q : Q) (z : Z) :
  (inject_Z z <= q)%Q -> (q < inject_Z (z + 1))%Q -> Qfloor q = z.
Proof.
  intros Hlo Hhi.
  pose proof (Qfloor_le q) as H1. pose proof (Qlt_floor q) as H2.
  assert (A : (inject_Z (Qfloor q) < inject_Z (z + 1))%Q) by lra.
  assert (B : (inject_Z z < inject_Z (Qfloor q + 1))%Q) by lra.
  rewrite <- Zlt_Qlt in A, B. lia.
Qed.

Lemma Qceiling_unique (q : Q) (z : Z) :
  (inject_Z (z - 1) < q)%Q -> (q <= inject_Z z)%Q -> Qceiling q = z.
Proof.
  intros Hlo Hhi.
  pose proof (Qle_ceiling q) as H1. pose proof (Qceiling_lt q) as H2.
  assert (A : (inject_Z (z - 1) < inject_Z (Qceiling q))%Q) by lra.
  assert (B : (inject_Z (Qceiling q - 1) < inject_Z z)%Q) by lra.
  rewrite <- Zlt_Qlt in A, B. lia.
Qed.

(** Away from the half-integers the two conventions round alike. *)
Lemma rint_round_half_away (x : Q) :
  is_half_integer x = false -> rint x = round_half_away x.
Proof.
  unfold is_half_integer, rint, round_half_away. intros Hhalf.
  pose proof (Qfloor_le x) as Hlo. pose proof (Qlt_floor x) as Hhi.
  rewrite inject_Z_plus in Hhi. change (inject_Z 1) with 1%Q in Hhi.
  destruct (Qcompare_spec (x - inject_Z (Qfloor x)) (1 # 2)) as [E | L | L].
  - apply Qeq_bool_iff in E. congruence.
  - destruct (Qle_bool 0 x) eqn:Hx; symmetry.
    + apply Qfloor_unique; [lra |].
      rewrite inject_Z_plus. change (inject_Z 1) with 1%Q. lra.
    + apply Qceiling_unique; [| lra].
      unfold Z.sub. rewrite inject_Z_plus, inject_Z_opp.
      change (inject_Z 1) with 1%Q. lra.
  - destruct (Qle_bool 0 x) eqn:Hx; symmetry.
    + apply Qfloor_unique.
      * rewrite inject_Z_plus. change (inject_Z 1) with 1%Q. lra.
      * rewrite !inject_Z_plus. change (inject_Z 1) with 1%Q. lra.
    + apply Qceiling_unique.
      * replace (Qfloor x + 1 - 1) with (Qfloor x) by lia. lra.
      * rewrite inject_Z_plus. change (inject_Z 1) with 1%Q. lra.
Qed.


(** C10. For each possible draw 0, 1, 2, 3 the product with 1 - 0.2 is not
    a half-integer, so rounding halves to even and rounding halves away from
    zero give the same integer and the attenuation is the same function on
    the draws under either convention; the rounded value lies in [0,2], so
    clamping into [0,3] changes nothing. *)
Theorem rounding_conventions_agree (x : Z) :
  In x choice_values ->
  Forall (fun y => is_half_integer y = false)
    (np_scale [x] (1 - effect_size_default))
  /\ Forall (fun y => rint y = round_half_away y /\ 0 <= rint y <= 2)
       (np_scale [x] (1 - effect_size_default))
  /\ apply_treatment_effect [x] effect_size_default
     = apply_treatment_effect_half_away [x] effect_size_default
  /\ attenuate x = attenuate_half_away x
  /\ np_clip (np_round (np_scale [x] (1 - effect_size_default))) 0 3
     = np_round (np_scale [x] (1 - effect_size_default)).
Proof.
  intros H. simpl in H.
  destruct H as [<- | [<- | [<- | [<- | []]]]];
    (split; [repeat constructor |]);
    (split; [repeat constructor; vm_compute; discriminate |]);
    repeat split.
Qed.

Lemma rounding_conventions_agree_witness :
  In 3 choice_values
  /\ apply_treatment_effect [3] effect_size_default
     = apply_treatment_effect_half_away [3] effect_size_default
  /\ np_clip (np_round (np_scale [3] (1 - effect_size_default))) 0 3
     = np_round (np_scale [3] (1 - effect_size_default)).
Proof.
  assert (H : In 3 choice_values) by (simpl; tauto).
  split; [exact H |].
  destruct (rounding_conventions_agree 3 H) as (_ & _ & Ha & _ & Hc).
  split; [exact Ha | exact Hc].
Defined.

(** ** Determinism and the order of the draws *)

Lemma list_prod_nth {A B : Type} (xs : list A) (ys : list B) (x : A) (y : B) :
  forall i j,
    nth_error xs i = Some x -> nth_error ys j = Some y ->
    nth_error (list_prod xs ys) (i * List.length ys + j) = Some (x, y).
Proof.
  induction xs as [| x' xs IH]; intros i j Hx Hy.
  - now destruct i.
  - assert (Hj : (j < List.length ys)%nat)
      by (apply nth_error_Some; now rewrite Hy).
    destruct i as [| i]; cbn [list_prod].
    + injection Hx as ->. simpl.
      rewrite nth_error_app1 by now rewrite length_map.
      now rewrite nth_error_map, Hy.
    + rewrite nth_error_app2 by (rewrite length_map; simpl; lia).
      rewrite length_map.
      replace (S i * List.length ys + j - List.length ys)%nat
        with (i * List.length ys + j)%nat by (simpl; lia).
      now apply IH.
Qed.

Lemma py_range_nth (a b : Z) (i : nat) :
  (i < Z.to_nat (b - a))%nat ->
  nth_error (py_range a b) i = Some (a + Z.of_nat i).
Proof.
  intros H. unfold py_range.
  rewrite nth_error_map.
  rewrite (nth_error_nth' _ O) by now rewrite length_seq.
  now rewrite seq_nth.
Qed.

(** The plan lists the triples group by group, subject by subject, timepoint
    by timepoint. *)
Lemma plan_nth (gi si ti : nat) :
  (gi < 2)%nat -> (si < 20)%nat -> (ti < 5)%nat ->
  nth_error plan ((gi * 20 + si) * 5 + ti)
  = Some (nth gi groups "", 1 + Z.of_nat si, nth ti timepoints "").
Proof.
  intros Hg Hs Ht. unfold plan.
  apply (list_prod_nth _ timepoints (nth gi groups "", 1 + Z.of_nat si)).
  - apply (list_prod_nth groups (py_range 1 (n_per_group + 1))).
    + now apply nth_error_nth'.
    + now apply py_range_nth.
  - now apply nth_error_nth'.
Qed.

Lemma rows_of_draws_cell (l : list Z) (gi si ti j : nat) :
  List.length l = 4200%nat ->
  (gi < 2)%nat -> (si < 20)%nat -> (ti < 5)%nat -> (j < 21)%nat ->
  exists row,
    nth_error (rows_of_draws l) ((gi * 20 + si) * 5 + ti) = Some row
    /\ dict_get row "id"
       = Some (VStr (format_full_id (nth gi groups "") (1 + Z.of_nat si)))
    /\ dict_get row "group" = Some (VStr (nth gi groups ""))
    /\ dict_get row "timepoint" = Some (VStr (nth ti timepoints ""))
    /\ dict_get row (nth j questions "")
       = Some (VInt (stored_score (nth gi groups "") (nth ti timepoints "")
                       (nth (((gi * 20 + si) * 5 + ti) * 21 + j) l 0))).
Proof.
  intros Hl Hg Hs Ht Hj.
  pose proof (plan_nth gi si ti Hg Hs Ht) as Hp.
  pose proof (rows_of_draws_nth l ((gi * 20 + si) * 5 + ti)) as Hn.
  rewrite Hp in Hn. cbn [option_map] in Hn.
  eexists. split; [exact Hn |].
  destruct (rows_of_draws_rule l _ j _ Hl Hn Hj)
    as (group & subject_id & time & Erow & Hp' & Hq).
  rewrite Hp in Hp'. injection Hp' as <- <- <-.
  rewrite Hq. rewrite Erow.
  repeat split.
Qed.

(** C7. The data set and the file depend on the generator only through the
    values it hands out after seeding with 42, consumed in the order group,
    subject, timepoint, item: draw number [((20 g + s) 5 + t) 21 + j] decides
    item [j] of the row of group [g], subject [s], timepoint [t].  Two runs
    whose generators hand out the same values (in particular two runs of the
    same generator from the same seed) produce the same rows and the same
    file, character by character. *)
Theorem same_draws_same_file (G1 G2 : Generator) :
  fst (@draws G1 4200 (np_random_seed 42))
  = fst (@draws G2 4200 (np_random_seed 42)) ->
  exists data,
    fst (@simulate G1) = inr data
    /\ fst (@simulate G2) = inr data
    /\ fst (@simulation_script G1) = inr (csv_path, to_csv (pd_DataFrame data))
    /\ fst (@simulation_script G2) = inr (csv_path, to_csv (pd_DataFrame data))
    /\ forall gi si ti j,
       (gi < 2)%nat -> (si < 20)%nat -> (ti < 5)%nat -> (j < 21)%nat ->
       exists row,
         nth_error data ((gi * 20 + si) * 5 + ti) = Some row
         /\ dict_get row "id"
            = Some (VStr (format_full_id (nth gi groups "") (1 + Z.of_nat si)))
         /\ dict_get row "group" = Some (VStr (nth gi groups ""))
         /\ dict_get row "timepoint" = Some (VStr (nth ti timepoints ""))
         /\ dict_get row (nth j questions "")
            = Some (VInt (stored_score (nth gi groups "") (nth ti timepoints "")
                            (@nth_draw G1 (((gi * 20 + si) * 5 + ti) * 21 + j)))).
Proof.
  intros Hsame. unfold simulation_script, nth_draw.
  rewrite (@simulate_rows G1), (@simulate_rows G2), <- Hsame.
  pose proof (@draws_length G1 4200 (np_random_seed 42)) as Hl. revert Hl.
  generalize (fst (@draws G1 4200 (np_random_seed 42))) as l. intros l Hl.
  exists (rows_of_draws l).
  repeat (split; [reflexivity |]).
  intros gi si ti j. now apply rows_of_draws_cell.
Qed.

Lemma same_draws_same_file_witness :
  fst (@draws lcg 4200 (np_random_seed 42))
  = fst (@draws (replay lcg_tape) 4200 (np_random_seed 42))
  /\ fst (@simulation_script lcg) = fst (@simulation_script (replay lcg_tape)).
Proof.
  assert (H : fst (@draws lcg 4200 (np_random_seed 42))
              = fst (@draws (replay lcg_tape) 4200 (np_random_seed 42)))
    by (vm_compute; reflexivity).
  split; [exact H |].
  destruct (same_draws_same_file lcg (replay lcg_tape) H)
    as (data & _ & _ & E1 & E2 & _).
  now rewrite E1, E2.
Defined.

(** * Properties of the checking script *)

(** ** Labels *)

Lemma value_eqb_eq (a b : value) : value_eqb a b = true <-> a = b.
Proof.
  destruct a as [s | x], b as [t | y]; simpl.
  - rewrite String.eqb_eq. split; congruence.
  - split; discriminate.
  - split; discriminate.
  - rewrite Z.eqb_eq. split; congruence.
Qed.

Lemma label_eqb_eq (a b : label) : label_eqb a b = true <-> a = b.
Proof.
  revert b. induction a as [| x a IH]; intros [| y b]; simpl.
  - tauto.
  - split; discriminate.
  - split; discriminate.
  - rewrite andb_true_iff, value_eqb_eq, IH. split.
    + intros [-> ->]. reflexivity.
    + intros H. injection H as -> ->. tauto.
Qed.

Lemma label_eqb_refl (a : label) : label_eqb a a = true.
Proof. now apply label_eqb_eq. Qed.

Lemma label_mem_In (a : label) (ls : list label) :
  label_mem a ls = true <-> In a ls.
Proof.
  unfold label_mem. rewrite existsb_exists. split.
  - intros (b & Hb & E). apply label_eqb_eq in E. now subst.
  - intros H. exists a. split; [exact H | apply label_eqb_refl].
Qed.

Lemma distinct_In (a : label) (ls : list label) :
  In a (distinct ls) <-> In a ls.
Proof.
  induction ls as [| b ls IH]; simpl.
  - tauto.
  - rewrite filter_In, IH. split.
    + intros [H | [H _]]; tauto.
    + intros [H | H]; [now left |].
      destruct (label_eqb b a) eqn:E.
      * apply label_eqb_eq in E. now left.
      * right. split; [exact H | reflexivity].
Qed.

Lemma str_mem_In (c : string) (cs : list string) :
  str_mem c cs = true <-> In c cs.
Proof.
  unfold str_mem. rewrite existsb_exists. split.
  - intros (b & Hb & E). apply String.eqb_eq in E. now subst.
  - intros H. exists c. split; [exact H | apply String.eqb_refl].
Qed.

Lemma first_missing_None (cols : list string) (df : DataFrame) :
  first_missing cols df = None <-> forall c, In c cols -> In c (df_columns df).
Proof.
  unfold first_missing. split.
  - intros H c Hc. pose proof (find_none _ _ H c Hc) as E.
    apply negb_false_iff in E. now apply str_mem_In.
  - intros H. destruct (find _ cols) as [c |] eqn:E; [| reflexivity].
    apply find_some in E. destruct E as [Hc E].
    apply negb_true_iff in E. apply H, str_mem_In in Hc. congruence.
Qed.


(** ** Groups of rows *)

Lemma group_label (row : dict) (l : label) :
  row_label ["group"; "timepoint"] row = Some l <->
  exists g t, dict_get row "group" = Some g /\ dict_get row "timepoint" = Some t
              /\ l = [g; t].
Proof.
  simpl. destruct (dict_get row "group") as [g |], (dict_get row "timepoint") as [t |];
    split; try discriminate.
  - intros H. injection H as <-. now exists g, t.
  - intros (g' & t' & Hg & Ht & ->).
    injection Hg as ->. injection Ht as ->. reflexivity.
  - intros (g' & t' & Hg & Ht & _). discriminate.
  - intros (g' & t' & Hg & Ht & _). discriminate.
  - intros (g' & t' & Hg & Ht & _). discriminate.
Qed.

Lemma group_labels_In (df : DataFrame) (l : label) :
  In l (group_labels df) <->
  exists row, In row (df_rows df) /\ row_label ["group"; "timepoint"] row = Some l.
Proof.
  unfold group_labels, summary_of, table_round, grouped_means. cbn [t_index].
  rewrite distinct_In, in_flat_map. split.
  - intros (row & Hrow & H). exists row. split; [exact Hrow |].
    destruct (row_label _ row) as [l' |]; simpl in H; [| tauto].
    destruct H as [-> | []]. reflexivity.
  - intros (row & Hrow & H). exists row. split; [exact Hrow |].
    rewrite H. now left.
Qed.

Lemma has_group_true (df : DataFrame) (g : string) :
  has_group df g = true <->
  exists t, In [VStr g; t] (group_labels df).
Proof.
  unfold has_group. rewrite existsb_exists. split.
  - intros (row & Hrow & H). apply andb_true_iff in H. destruct H as [Hg Ht].
    destruct (dict_get row "group") as [vg |] eqn:Eg; [| discriminate].
    destruct (dict_get row "timepoint") as [vt |] eqn:Et; [| discriminate].
    simpl in Hg. apply value_eqb_eq in Hg. subst vg.
    exists vt. apply group_labels_In. exists row. split; [exact Hrow |].
    apply group_label. now exists (VStr g), vt.
  - intros (t & H). apply group_labels_In in H. destruct H as (row & Hrow & H).
    apply group_label in H. destruct H as (g' & t' & Hg & Ht & E).
    injection E as <- <-.
    exists row. split; [exact Hrow |]. rewrite Hg, Ht. simpl.
    now rewrite String.eqb_refl.
Qed.

Lemma group_labels_shape (df : DataFrame) (l : label) :
  In l (group_labels df) -> exists g t, l = [g; t].
Proof.
  intros H. apply group_labels_In in H. destruct H as (row & _ & H).
  apply group_label in H. destruct H as (g & t & _ & _ & ->). now exists g, t.
Qed.

(** A column (subscale, group) of the unstacked table exists exactly when the
    group has a row. *)
Lemma diff_column (df : DataFrame) (c g : string) :
  In c subscale_columns ->
  label_mem [VStr c; VStr g] (t_columns (unstack_level0 (summary_of df)))
  = has_group df g.
Proof.
  intros Hc. apply eq_iff_eq_true.
  rewrite label_mem_In, has_group_true.
  unfold unstack_level0. cbn [t_columns].
  fold (group_labels df).
  change (t_columns (summary_of df))
    with [[VStr "DASS_Anxiety"]; [VStr "DASS_Depression"]; [VStr "DASS_Stress"]].
  rewrite in_flat_map. split.
  - intros (col & Hcol & H). apply in_map_iff in H. destruct H as (f & E & Hf).
    apply distinct_In, in_map_iff in Hf. destruct Hf as (l & <- & Hl).
    destruct (group_labels_shape df l Hl) as (g' & t' & ->).
    exists t'. simpl in E.
    simpl in Hcol. destruct Hcol as [<- | [<- | [<- | []]]];
      simpl in E; injection E as _ ->; exact Hl.
  - intros (t & Hl). exists [VStr c]. split.
    + simpl in Hc. simpl. destruct Hc as [<- | [<- | [<- | []]]]; tauto.
    + apply in_map_iff. exists [VStr g]. split; [reflexivity |].
      apply distinct_In, in_map_iff. exists [VStr g; t]. split; [reflexivity | exact Hl].
Qed.

(** ** A run, case by case *)

Lemma checking_script_run (fs : filesystem) :
  checking_script fs [] =
  match fs "data/simulated_dass21_full.csv" with
  | None => (inl (FileNotFoundError "data/simulated_dass21_full.csv"), [])
  | Some df =>
      match first_missing ["group"; "timepoint"] df with
      | Some k => (inl (KeyError [VStr k]), [])
      | None =>
          match first_missing subscale_columns df with
          | Some c => (inl (KeyError [VStr c]), [])
          | None =>
              if negb (forallb (fun c => column_is_numeric c (df_rows df))
                         subscale_columns)
              then (inl TypeError, [])
              else if negb (has_group df "intervention")
              then (inl (KeyError [VStr "DASS_Anxiety"; VStr "intervention"]),
                    [summary_heading; PTable (summary_of df)])
              else if negb (has_group df "control")
              then (inl (KeyError [VStr "DASS_Anxiety"; VStr "control"]),
                    [summary_heading; PTable (summary_of df)])
              else (inr tt,
                    [summary_heading; PTable (summary_of df);
                     change_heading; PTable (change_of df)])
          end
      end
  end.
Proof.
  unfold checking_script, bind at 1, read_csv.
  destruct (fs "data/simulated_dass21_full.csv") as [df |]; [| reflexivity].
  unfold ret at 1. unfold bind at 1, groupby_mean.
  fold subscale_columns.
  destruct (first_missing ["group"; "timepoint"] df); [reflexivity |].
  destruct (first_missing subscale_columns df); [reflexivity |].
  destruct (forallb _ subscale_columns); [| reflexivity].
  unfold ret at 1. cbn [negb].
  change (table_round (grouped_means df ["group"; "timepoint"] subscale_columns) 2)
    with (summary_of df).
  unfold bind at 1, print at 1. unfold bind at 1, print at 1.
  cbn [app]. fold summary_heading.
  unfold table_getitem. rewrite !diff_column by (simpl; tauto).
  destruct (has_group df "intervention"); [| reflexivity].
  destruct (has_group df "control"); reflexivity.
Qed.

(** ** Cells of the printed tables *)

Lemma value_eqb_sym (a b : value) : value_eqb a b = value_eqb b a.
Proof.
  destruct a, b; simpl; try reflexivity.
  - apply String.eqb_sym.
  - apply Z.eqb_sym.
Qed.

Lemma rows_at_filter (df : DataFrame) (g t : string) :
  filter (in_group ["group"; "timepoint"] [VStr g; VStr t]) (df_rows df)
  = rows_at df g t.
Proof.
  unfold rows_at. apply filter_ext. intros row. unfold in_group. simpl.
  destruct (dict_get row "group") as [vg |], (dict_get row "timepoint") as [vt |];
    simpl; try reflexivity.
  - rewrite andb_true_r.
    change (String.eqb g) with (fun s => String.eqb g s).
    now rewrite (value_eqb_sym vg), (value_eqb_sym vt).
  - now rewrite andb_false_r.
Qed.

Lemma rows_at_nonempty (df : DataFrame) (g t : string) :
  rows_at df g t <> [] <-> In [VStr g; VStr t] (group_labels df).
Proof.
  rewrite group_labels_In. split.
  - intros H. destruct (rows_at df g t) as [| row rows] eqn:E; [congruence |].
    assert (Hrow : In row (rows_at df g t)) by (rewrite E; now left).
    unfold rows_at in Hrow. apply filter_In in Hrow. destruct Hrow as [Hrow Hk].
    exists row. split; [exact Hrow |]. apply group_label.
    apply andb_true_iff in Hk. destruct Hk as [Hg Ht].
    destruct (dict_get row "group") as [vg |]; [| discriminate].
    destruct (dict_get row "timepoint") as [vt |]; [| discriminate].
    simpl in Hg, Ht. apply value_eqb_eq in Hg, Ht. subst.
    now exists (VStr g), (VStr t).
  - intros (row & Hrow & H). apply group_label in H.
    destruct H as (vg & vt & Hg & Ht & E). injection E as <- <-.
    assert (Hin : In row (rows_at df g t)).
    { unfold rows_at. apply filter_In. split; [exact Hrow |].
      rewrite Hg, Ht. simpl. now rewrite !String.eqb_refl. }
    intros E. rewrite E in Hin. exact Hin.
Qed.

Lemma numeric_cells_length (c : string) (rows : list dict) :
  (forall row, In row rows -> exists z, dict_get row c = Some (VInt z)) ->
  List.length (numeric_cells c rows) = List.length rows.
Proof.
  induction rows as [| row rows IH]; intros H.
  - reflexivity.
  - cbn [numeric_cells flat_map].
    destruct (H row (or_introl eq_refl)) as [z ->].
    cbn [app List.length]. f_equal. apply IH.
    intros r Hr. apply H. now right.
Qed.

Lemma mean_arithmetic (xs : list Z) :
  xs <> [] -> mean xs = Some (arithmetic_mean xs).
Proof. destruct xs; [congruence | reflexivity]. Qed.

Lemma summary_cell (df : DataFrame) (g t c : string) :
  In c subscale_columns -> integer_totals df -> rows_at df g t <> [] ->
  t_at (summary_of df) [VStr g; VStr t] [VStr c]
  = Some (round_decimals 2 (group_mean df g t c)).
Proof.
  intros Hc Hint Hrows.
  pose proof (proj1 (rows_at_nonempty df g t) Hrows) as Hl.
  apply label_mem_In in Hl.
  unfold summary_of, table_round. cbn [t_at grouped_means].
  unfold group_labels, summary_of, table_round in Hl. cbn [t_index grouped_means] in Hl.
  rewrite Hl.
  change ["DASS_Anxiety"; "DASS_Depression"; "DASS_Stress"] with subscale_columns.
  rewrite (proj2 (str_mem_In c subscale_columns) Hc). cbn [andb].
  rewrite rows_at_filter, mean_arithmetic; [reflexivity |].
  intros E. apply (f_equal (@List.length Z)) in E.
  rewrite numeric_cells_length in E.
  - destruct (rows_at df g t); [congruence | discriminate].
  - intros row Hrow. apply (Hint row c); [| exact Hc].
    unfold rows_at in Hrow. now apply filter_In in Hrow.
Qed.


Lemma change_cell (df : DataFrame) (t c name : string) :
  In (c, name) report_columns ->
  t_at (change_of df) [VStr t] [VStr name]
  = option_map (round_decimals 2)
      (match t_at (unstack_level0 (summary_of df)) [VStr t] [VStr c; VStr "intervention"],
             t_at (unstack_level0 (summary_of df)) [VStr t] [VStr c; VStr "control"]
       with
       | Some x, Some y => Some (x - y)%Q
       | _, _ => None
       end).
Proof.
  intros H. simpl in H.
  destruct H as [H | [H | [H | []]]]; injection H as <- <-; reflexivity.
Qed.





(** The scenario of the specification: one subject per group, anxiety 5
    against 10, gives means 5.00 and 10.00 and the difference -5.00. *)
Example five_ten_report :
  exists mi mc d,
    t_at (summary_of five_ten) [VStr "intervention"; VStr "baseline"] [VStr "DASS_Anxiety"] = Some mi
    /\ t_at (summary_of five_ten) [VStr "control"; VStr "baseline"] [VStr "DASS_Anxiety"] = Some mc
    /\ reported_change (fs_with five_ten) "baseline" "Anxiety" = Some d
    /\ (mi == 5)%Q /\ (mc == 10)%Q /\ (d == - 5)%Q.
Proof.
  do 3 eexists.
  split; [vm_compute; reflexivity |].
  split; [vm_compute; reflexivity |].
  split; [vm_compute; reflexivity |].
  repeat split.
Qed.

(** ** Failures *)


Lemma required_columns_split (df : DataFrame) :
  (forall c, In c required_columns -> In c (df_columns df)) <->
  first_missing ["group"; "timepoint"] df = None
  /\ first_missing subscale_columns df = None.
Proof.
  rewrite !first_missing_None. unfold required_columns, subscale_columns.
  split.
  - intros H. split; intros c Hc; apply H; simpl in *; tauto.
  - intros [H1 H2] c Hc. simpl in Hc.
    destruct Hc as [<- | [<- | Hc]];
      [apply H1; simpl; tauto | apply H1; simpl; tauto | apply H2; exact Hc].
Qed.





(** * Further properties of the simulation *)

(** ** The attenuation on arbitrary arrays *)

Lemma rint_comp (x y : Q) : (x == y)%Q -> rint x = rint y.
Proof.
  intros E. unfold rint. rewrite (Qfloor_comp x y E).
  assert (E' : (x - inject_Z (Qfloor y) == y - inject_Z (Qfloor y))%Q)
    by (rewrite E; reflexivity).
  now rewrite (Qcompare_comp _ _ E' (1 # 2) (1 # 2) (Qeq_refl _)).
Qed.

Lemma rint_inject_Z (k : Z) : rint (inject_Z k) = k.
Proof.
  unfold rint. rewrite Qfloor_Z.
  destruct (Qcompare_spec (inject_Z k - inject_Z k) (1 # 2)) as [E | L | L];
    [lra | reflexivity | lra].
Qed.

Lemma rint_floor_bounds (x : Q) : Qfloor x <= rint x <= Qfloor x + 1.
Proof.
  unfold rint.
  destruct (Qcompare (x - inject_Z (Qfloor x)) (1 # 2));
    [destruct (Z.even (Qfloor x)) | |]; lia.
Qed.

Lemma rint_monotone (x y : Q) : (x <= y)%Q -> rint x <= rint y.
Proof.
  intros Hxy.
  pose proof (Qfloor_resp_le x y Hxy) as Hf.
  destruct (Z.eq_dec (Qfloor x) (Qfloor y)) as [E | N].
  - unfold rint. rewrite <- E.
    destruct (Qcompare_spec (x - inject_Z (Qfloor x)) (1 # 2)) as [Ex | Lx | Lx];
      destruct (Qcompare_spec (y - inject_Z (Qfloor x)) (1 # 2)) as [Ey | Ly | Ly];
      try destruct (Z.even (Qfloor x)); try lia; lra.
  - pose proof (rint_floor_bounds x). pose proof (rint_floor_bounds y). lia.
Qed.

(** Element by element the array function is: scale, round, clamp. *)
Lemma apply_treatment_effect_map (scores : list Z) (effect_size : Q) :
  apply_treatment_effect scores effect_size
  = map (fun x => Z.max 0 (Z.min 3 (rint (inject_Z x * (1 - effect_size)))))
      scores.
Proof.
  induction scores as [| x scores IH].
  - reflexivity.
  - change (apply_treatment_effect (x :: scores) effect_size)
      with (astype_int (np_clip [inject_Z (rint (inject_Z x * (1 - effect_size)))] 0 3)
              ++ apply_treatment_effect scores effect_size)%list.
    now rewrite clip_astype_int, IH.
Qed.


(** X2. For an effect size of at most 1 the attenuation keeps the order of
    the scores: a larger score never gets a smaller attenuated score. *)
Theorem apply_treatment_effect_monotone (xs ys : list Z) (effect_size : Q) :
  (effect_size <= 1)%Q ->
  Forall2 Z.le xs ys ->
  Forall2 Z.le (apply_treatment_effect xs effect_size)
    (apply_treatment_effect ys effect_size).
Proof.
  intros He H. rewrite !apply_treatment_effect_map.
  induction H as [| x y xs ys Hxy _ IH]; cbn [map]; constructor; [| exact IH].
  assert (Hq : (inject_Z x * (1 - effect_size) <= inject_Z y * (1 - effect_size))%Q).
  { apply Qmult_le_compat_r; [now rewrite <- Zle_Qle | lra]. }
  pose proof (rint_monotone _ _ Hq). lia.
Qed.

Lemma apply_treatment_effect_monotone_witness :
  (2 # 10 <= 1)%Q
  /\ Forall2 Z.le [0; 1; 5] [1; 3; 7]
  /\ Forall2 Z.le (apply_treatment_effect [0; 1; 5] (2 # 10))
       (apply_treatment_effect [1; 3; 7] (2 # 10)).
Proof.
  assert (He : (2 # 10 <= 1)%Q) by (vm_compute; discriminate).
  assert (H : Forall2 Z.le [0; 1; 5] [1; 3; 7]) by (repeat constructor; lia).
  split; [exact He |]. split; [exact H |].
  exact (apply_treatment_effect_monotone _ _ _ He H).
Defined.

(** X3. For an effect size between 0 and 1 the attenuation never raises a
    non-negative score, and it maps every negative score to 0. *)
Theorem apply_treatment_effect_never_raises (scores : list Z) (effect_size : Q) :
  (0 <= effect_size <= 1)%Q ->
  Forall2 (fun x y => (0 <= x -> y <= x) /\ (x < 0 -> y = 0))
    scores (apply_treatment_effect scores effect_size).
Proof.
  intros He. rewrite apply_treatment_effect_map.
  induction scores as [| x scores IH]; cbn [map]; constructor; [| exact IH].
  split.
  - intros Hx.
    assert (Hq : (inject_Z x * (1 - effect_size) <= inject_Z x)%Q).
    { assert (0 <= inject_Z x)%Q by (change 0%Q with (inject_Z 0); now rewrite <- Zle_Qle).
      nra. }
    pose proof (rint_monotone _ _ Hq) as H. rewrite rint_inject_Z in H. lia.
  - intros Hx.
    assert (Hq : (inject_Z x * (1 - effect_size) <= inject_Z 0)%Q).
    { assert (inject_Z x <= 0)%Q by (change 0%Q with (inject_Z 0); rewrite <- Zle_Qle; lia).
      change (inject_Z 0) with 0%Q. nra. }
    pose proof (rint_monotone _ _ Hq) as H. rewrite rint_inject_Z in H. lia.
Qed.

Lemma apply_treatment_effect_never_raises_witness :
  (0 <= 2 # 10 <= 1)%Q
  /\ Forall2 (fun x y => (0 <= x -> y <= x) /\ (x < 0 -> y = 0))
       [-2; 0; 3; 9] (apply_treatment_effect [-2; 0; 3; 9] (2 # 10)).
Proof.
  assert (He : (0 <= 2 # 10 <= 1)%Q) by (split; vm_compute; discriminate).
  split; [exact He |].
  exact (apply_treatment_effect_never_raises _ _ He).
Defined.

(** X4. The two ends of the effect size: with effect size 0 a score is only
    clamped into [0,3], so valid scores come back unchanged; with effect size
    1 every score becomes 0. *)
Theorem apply_treatment_effect_extremes (scores : list Z) :
  apply_treatment_effect scores 0 = map (fun x => Z.max 0 (Z.min 3 x)) scores
  /\ (Forall (fun x => 0 <= x <= 3) scores ->
      apply_treatment_effect scores 0 = scores)
  /\ apply_treatment_effect scores 1 = map (fun _ => 0) scores.
Proof.
  rewrite !apply_treatment_effect_map.
  assert (E0 : forall x, rint (inject_Z x * (1 - 0)) = x).
  { intros x. rewrite (rint_comp _ (inject_Z x)) by ring. apply rint_inject_Z. }
  assert (E1 : forall x, rint (inject_Z x * (1 - 1)) = 0).
  { intros x. rewrite (rint_comp _ (inject_Z 0)) by ring. apply rint_inject_Z. }
  split; [| split].
  - apply map_ext. intros x. now rewrite E0.
  - intros H. induction H as [| x xs Hx _ IH]; cbn [map]; [reflexivity |].
    rewrite E0, IH. f_equal. lia.
  - apply map_ext. intros x. now rewrite E1.
Qed.

Lemma apply_treatment_effect_extremes_witness :
  Forall (fun x => 0 <= x <= 3) [0; 2; 3]
  /\ apply_treatment_effect [0; 2; 3] 0 = [0; 2; 3].
Proof.
  assert (H : Forall (fun x => 0 <= x <= 3) [0; 2; 3]) by (repeat constructor; lia).
  split; [exact H |].
  exact (proj1 (proj2 (apply_treatment_effect_extremes [0; 2; 3])) H).
Defined.

(** ** Subject ids *)

Lemma append_inv_head (s a b : string) : (s ++ a = s ++ b)%string -> a = b.
Proof.
  induction s as [| c s IH]; simpl; intros H; [exact H |].
  injection H as H. now apply IH.
Qed.


Lemma py_range_In (a b i : Z) : In i (py_range a b) <-> a <= i < b.
Proof.
  unfold py_range. rewrite in_map_iff. split.
  - intros (n & <- & Hn). apply in_seq in Hn. lia.
  - intros H. exists (Z.to_nat (i - a)). split; [lia |]. apply in_seq. lia.
Qed.



(** ** Rows *)

Lemma row_closed_keys (f : Z -> Z) (group full_id time : string) (c : list Z) :
  List.length c = 21%nat ->
  dict_keys (row_closed f group full_id time c) = csv_columns.
Proof.
  intros Hc.
  destruct (list_of_length_21 c Hc)
    as (x1 & x2 & x3 & x4 & x5 & x6 & x7 & x8 & x9 & x10 & x11 & x12 & x13
        & x14 & x15 & x16 & x17 & x18 & x19 & x20 & x21 & ->).
  reflexivity.
Qed.

Lemma csv_columns_NoDup : NoDup csv_columns.
Proof.
  apply (NoDup_map_inv (fun k => (k, k))).
  apply all_distinct_NoDup. vm_compute. reflexivity.
Qed.

Lemma row_closed_cells (f : Z -> Z) (group full_id time : string) (c : list Z)
  (col : string) :
  List.length c = 21%nat -> In col csv_columns ->
  exists v, dict_get (row_closed f group full_id time c) col = Some v.
Proof.
  intros Hc Hcol.
  destruct (list_of_length_21 c Hc)
    as (x1 & x2 & x3 & x4 & x5 & x6 & x7 & x8 & x9 & x10 & x11 & x12 & x13
        & x14 & x15 & x16 & x17 & x18 & x19 & x20 & x21 & ->).
  vm_compute in Hcol.
  repeat (destruct Hcol as [<- | Hcol]; [eexists; reflexivity |]).
  destruct Hcol.
Qed.

(** X6. Whatever the group, the id, the timepoint and the state of the
    generator, building a row raises no exception, takes exactly 21 values
    from the generator, and returns a dictionary whose keys are, in order,
    id, group, timepoint, Q1..Q21 and the three subscale totals (27 different
    keys), with the id, group and timepoint it was given. *)
Theorem make_row_shape (G : Generator) (group full_id time : string)
  (s : RandomState) :
  exists row,
    make_row group full_id time s = (inr row, snd (draws 21 s))
    /\ dict_keys row = csv_columns
    /\ List.length (dict_keys row) = 27%nat
    /\ NoDup (dict_keys row)
    /\ dict_get row "id" = Some (VStr full_id)
    /\ dict_get row "group" = Some (VStr group)
    /\ dict_get row "timepoint" = Some (VStr time).
Proof.
  rewrite make_row_closed.
  pose proof (draws_length 21 s) as Hc. revert Hc.
  generalize (snd (draws 21 s)) as s'. generalize (fst (draws 21 s)) as c.
  intros c s' Hc. eexists. split; [reflexivity |].
  rewrite (row_closed_keys _ _ _ _ c Hc).
  split; [reflexivity |]. split; [reflexivity |].
  split; [apply csv_columns_NoDup |].
  apply row_closed_id.
Qed.

(** X7. From any state of the generator the three nested loops raise no
    exception, return 200 rows and leave the generator in the state reached
    after exactly 4200 draws (21 for each row). *)
Theorem generate_takes_4200_draws (G : Generator) (s : RandomState) :
  exists data,
    generate s = (inr data, snd (draws 4200 s))
    /\ List.length data = 200%nat.
Proof.
  rewrite generate_rows. eexists. split; [reflexivity |].
  apply rows_of_draws_length.
Qed.

Lemma filter_length_by_key {A K : Type} (key : A -> K) (p : K -> bool)
  (l : list A) :
  List.length (filter (fun x => p (key x)) l)
  = List.length (filter p (map key l)).
Proof.
  induction l as [| x l IH]; simpl; [reflexivity |].
  destruct (p (key x)); simpl; now rewrite IH.
Qed.

Lemma rows_of_draws_group_time (l : list Z) :
  map group_time (rows_of_draws l) = map plan_group_time plan.
Proof.
  apply chunked_singletons_keys.
  intros [[group subject_id] time] c. reflexivity.
Qed.

Lemma plan_In (group : string) (subject_id : Z) (time : string) :
  In (group, subject_id, time) plan <->
  In group groups /\ 1 <= subject_id <= n_per_group /\ In time timepoints.
Proof.
  unfold plan. rewrite !in_prod_iff, py_range_In. unfold n_per_group. intuition lia.
Qed.

Lemma rows_of_draws_rows_at (l : list Z) (group time : string) :
  In group groups -> In time timepoints ->
  List.length (rows_at (pd_DataFrame (rows_of_draws l)) group time) = 20%nat.
Proof.
  intros Hg Ht. unfold rows_at, pd_DataFrame. cbn [df_rows].
  rewrite (filter_length_by_key group_time
             (fun k => option_value_eqb (fst k) (Some (VStr group))
                       && option_value_eqb (snd k) (Some (VStr time)))%bool).
  rewrite rows_of_draws_group_time.
  simpl in Hg, Ht.
  destruct Hg as [<- | [<- | []]];
    destruct Ht as [<- | [<- | [<- | [<- | [<- | []]]]]];
    vm_compute; reflexivity.
Qed.

(** X8. The data set is a balanced design: every (group, timepoint) pair has
    exactly 20 rows, every group 100 rows, every timepoint 40 rows. *)
Theorem balanced_design (G : Generator) :
  exists data,
    fst simulate = inr data
    /\ (forall group time, In group groups -> In time timepoints ->
        List.length (rows_at (pd_DataFrame data) group time)
        = Z.to_nat n_per_group)
    /\ (forall group, In group groups ->
        List.length (filter (of_group group) data) = 100%nat)
    /\ (forall time, In time timepoints ->
        List.length (filter (at_time time) data) = 40%nat).
Proof.
  rewrite simulate_rows. generalize (fst (draws 4200 (np_random_seed 42))) as l.
  intros l. eexists. split; [reflexivity |].
  split; [| split].
  - intros group time Hg Ht. now apply rows_of_draws_rows_at.
  - intros group Hg. unfold of_group.
    rewrite (filter_length_by_key group_time
               (fun k => option_value_eqb (fst k) (Some (VStr group)))).
    rewrite rows_of_draws_group_time.
    simpl in Hg. destruct Hg as [<- | [<- | []]]; vm_compute; reflexivity.
  - intros time Ht. unfold at_time.
    rewrite (filter_length_by_key group_time
               (fun k => option_value_eqb (snd k) (Some (VStr time)))).
    rewrite rows_of_draws_group_time.
    simpl in Ht.
    destruct Ht as [<- | [<- | [<- | [<- | [<- | []]]]]]; vm_compute; reflexivity.
Qed.

Lemma balanced_design_witness :
  exists data,
    fst (@simulate lcg) = inr data
    /\ In "control" groups /\ In "9_months" timepoints
    /\ List.length (rows_at (pd_DataFrame data) "control" "9_months") = 20%nat.
Proof.
  destruct (balanced_design lcg) as (data & E & H & _).
  assert (Hg : In "control" groups) by (simpl; tauto).
  assert (Ht : In "9_months" timepoints) by (simpl; tauto).
  exists data. split; [exact E |]. split; [exact Hg |]. split; [exact Ht |].
  exact (H "control" "9_months" Hg Ht).
Defined.

(** X9. Every generated row carries one of the two groups, one of the five
    timepoints and the id built from its group and a subject number from 1
    to 20; the id starts with I for the intervention group and with C for
    the control group. *)
Theorem rows_are_labelled (G : Generator) :
  exists data,
    fst simulate = inr data
    /\ forall row, In row data ->
       exists group subject_id time,
         In group groups /\ 1 <= subject_id <= n_per_group
         /\ In time timepoints
         /\ dict_get row "group" = Some (VStr group)
         /\ dict_get row "timepoint" = Some (VStr time)
         /\ dict_get row "id" = Some (VStr (format_full_id group subject_id))
         /\ String.get 0 (format_full_id group subject_id)
            = Some (if String.eqb group "intervention" then "I"%char else "C"%char).
Proof.
  rewrite simulate_rows. generalize (fst (draws 4200 (np_random_seed 42))) as l.
  intros l. eexists. split; [reflexivity |].
  intros row Hrow.
  destruct (rows_of_draws_In l row Hrow) as (n & [[group subject_id] time] & Hp & ->).
  apply nth_error_In, plan_In in Hp. destruct Hp as (Hg & Hi & Ht).
  exists group, subject_id, time.
  split; [exact Hg |]. split; [exact Hi |]. split; [exact Ht |].
  split; [reflexivity |]. split; [reflexivity |]. split; [reflexivity |].
  simpl in Hg. destruct Hg as [<- | [<- | []]]; reflexivity.
Qed.

Lemma rows_are_labelled_witness :
  exists data row group subject_id time,
    fst (@simulate lcg) = inr data
    /\ In row data
    /\ In group groups /\ 1 <= subject_id <= n_per_group
    /\ dict_get row "id" = Some (VStr (format_full_id group subject_id))
    /\ dict_get row "timepoint" = Some (VStr time).
Proof.
  destruct (rows_are_labelled lcg) as (data & E & H).
  assert (Hd : data = lcg_data) by (unfold lcg_data; now rewrite E).
  assert (Hin : In (nth 7 data []) data)
    by (apply nth_In; rewrite Hd; vm_compute; lia).
  destruct (H (nth 7 data []) Hin)
    as (group & subject_id & time & Hg & Hi & _ & _ & Ht & Hid & _).
  exists data, (nth 7 data []), group, subject_id, time.
  repeat split; try assumption; apply Hi.
Defined.

(** ** The written frame *)

Lemma add_keys_known (keys cols : list string) :
  (forall k, In k keys -> In k cols) -> add_keys cols keys = cols.
Proof.
  unfold add_keys. induction keys as [| k keys IH]; intros H; [reflexivity |].
  cbn [fold_left].
  rewrite (proj2 (str_mem_In k cols)) by (apply H; now left).
  apply IH. intros k' Hk'. apply H. now right.
Qed.

Lemma add_keys_fresh (keys : list string) :
  NoDup keys ->
  forall cols, (forall k, In k keys -> ~ In k cols) ->
               add_keys cols keys = (cols ++ keys)%list.
Proof.
  unfold add_keys. induction 1 as [| k keys Hk _ IH]; intros cols H.
  - now rewrite app_nil_r.
  - cbn [fold_left].
    destruct (str_mem k cols) eqn:E.
    + apply str_mem_In in E. exfalso. apply (H k); [now left | exact E].
    + rewrite IH.
      * now rewrite <- app_assoc.
      * intros k' Hk' Hin. apply in_app_or in Hin. destruct Hin as [Hin | [-> | []]].
        -- apply (H k'); [now right | exact Hin].
        -- contradiction.
Qed.

Lemma pd_DataFrame_columns (data : list dict) (keys : list string) :
  NoDup keys -> data <> [] ->
  (forall row, In row data -> dict_keys row = keys) ->
  df_columns (pd_DataFrame data) = keys.
Proof.
  intros Hnd Hne Hkeys. unfold pd_DataFrame. cbn [df_columns].
  change (fold_left
            (fun cols row =>
               fold_left (fun cs k => if str_mem k cs then cs else (cs ++ [k])%list)
                 (dict_keys row) cols) data [])
    with (fold_left (fun cols row => add_keys cols (dict_keys row)) data []).
  destruct data as [| row data]; [congruence |].
  cbn [fold_left]. rewrite (Hkeys row (or_introl eq_refl)).
  rewrite (add_keys_fresh keys Hnd []) by (intros k _ []).
  cbn [app].
  assert (Hrest : forall r, In r data -> dict_keys r = keys)
    by (intros r Hr; apply Hkeys; now right).
  clear Hkeys Hne. induction data as [| r data IH]; [reflexivity |].
  cbn [fold_left]. rewrite (Hrest r (or_introl eq_refl)).
  rewrite add_keys_known by auto.
  apply IH. intros r' Hr'. apply Hrest. now right.
Qed.

Lemma rows_of_draws_chunks (l : list Z) (row : dict) :
  List.length l = 4200%nat -> In row (rows_of_draws l) ->
  exists group subject_id time c,
    In (group, subject_id, time) plan
    /\ List.length c = 21%nat
    /\ row = row_closed (stored_score group time) group
               (format_full_id group subject_id) time c.
Proof.
  intros Hl Hrow.
  destruct (rows_of_draws_In l row Hrow) as (n & [[group subject_id] time] & Hp & ->).
  exists group, subject_id, time, (firstn 21 (skipn (n * 21) l)).
  split; [now apply nth_error_In with n |].
  split; [apply chunk_length; [exact Hl | now apply plan_nth_lt with (group, subject_id, time)] |].
  reflexivity.
Qed.

Lemma rows_of_draws_columns (l : list Z) :
  List.length l = 4200%nat ->
  df_columns (pd_DataFrame (rows_of_draws l)) = csv_columns.
Proof.
  intros Hl. apply pd_DataFrame_columns; [apply csv_columns_NoDup | |].
  - intros E. apply (f_equal (@List.length dict)) in E.
    rewrite rows_of_draws_length in E. discriminate.
  - intros row Hrow.
    destruct (rows_of_draws_chunks l row Hl Hrow) as (g & i & t & c & _ & Hc & ->).
    now apply row_closed_keys.
Qed.

(** X10. The frame the script writes has the 27 columns id, group,
    timepoint, Q1..Q21, DASS_Anxiety, DASS_Depression, DASS_Stress in this
    order, every row has a cell in every column (no missing value), and the
    text of the file starts with the header line naming these columns. *)
Theorem written_frame_is_complete (G : Generator) :
  exists data body,
    fst simulate = inr data
    /\ df_columns (pd_DataFrame data) = csv_columns
    /\ (forall row col, In row data -> In col csv_columns ->
        exists v, dict_get row col = Some v)
    /\ fst simulation_script = inr (csv_path, csv_header ++ body).
Proof.
  unfold simulation_script. rewrite simulate_rows.
  pose proof (draws_length 4200 (np_random_seed 42)) as Hl. revert Hl.
  generalize (fst (draws 4200 (np_random_seed 42))) as l. intros l Hl.
  eexists. eexists. split; [reflexivity |].
  split; [now apply rows_of_draws_columns |].
  split.
  - intros row col Hrow Hcol.
    destruct (rows_of_draws_chunks l row Hl Hrow) as (g & i & t & c & _ & Hc & ->).
    now apply row_closed_cells.
  - cbn [fst]. unfold to_csv. rewrite (rows_of_draws_columns l Hl).
    change (map csv_field csv_columns) with csv_columns.
    reflexivity.
Qed.

Lemma written_frame_is_complete_witness :
  exists data,
    fst (@simulate lcg) = inr data
    /\ In (nth 3 data []) data /\ In "Q17" csv_columns
    /\ exists v, dict_get (nth 3 data []) "Q17" = Some v.
Proof.
  destruct (written_frame_is_complete lcg) as (data & body & E & _ & H & _).
  assert (Hd : data = lcg_data) by (unfold lcg_data; now rewrite E).
  assert (Hin : In (nth 3 data []) data)
    by (apply nth_In; rewrite Hd; vm_compute; lia).
  assert (Hc : In "Q17" csv_columns) by (vm_compute; tauto).
  exists data. split; [exact E |]. split; [exact Hin |]. split; [exact Hc |].
  exact (H (nth 3 data []) "Q17" Hin Hc).
Defined.

(** X11. Whatever values the generator hands out, an intervention-group row
    after baseline holds item scores between 0 and 3 only: the clamp of the
    attenuation does not rely on the draws being valid scores. *)
Theorem treated_rows_valid_for_any_draws (G : Generator) :
  exists data,
    fst simulate = inr data
    /\ forall row time, In row data ->
       dict_get row "group" = Some (VStr "intervention") ->
       dict_get row "timepoint" = Some (VStr time) ->
       time <> "baseline" ->
       forall q, In q questions ->
       exists x, dict_get row q = Some (VInt x) /\ 0 <= x <= 3.
Proof.
  rewrite simulate_rows.
  pose proof (draws_length 4200 (np_random_seed 42)) as Hl. revert Hl.
  generalize (fst (draws 4200 (np_random_seed 42))) as l. intros l Hl.
  eexists. split; [reflexivity |].
  intros row time Hrow Hgroup Htime Hnb q Hq.
  destruct (rows_of_draws_chunks l row Hl Hrow) as (g & i & t & c & _ & Hc & ->).
  destruct (row_closed_id (stored_score g t) g (format_full_id g i) t c)
    as (_ & Eg & Et).
  rewrite Eg in Hgroup. rewrite Et in Htime.
  injection Hgroup as ->. injection Htime as ->.
  destruct (questions_nth q Hq) as (j & Hj & ->).
  eexists. split; [now apply row_closed_item |].
  unfold stored_score. rewrite treated_intervention by assumption.
  apply attenuate_range.
Qed.

Lemma treated_rows_valid_for_any_draws_witness :
  exists data time,
    fst (@simulate (replay (repeat 5 30))) = inr data
    /\ dict_get (nth 1 data []) "group" = Some (VStr "intervention")
    /\ dict_get (nth 1 data []) "timepoint" = Some (VStr time)
    /\ time <> "baseline"
    /\ exists x, dict_get (nth 1 data []) "Q1" = Some (VInt x) /\ 0 <= x <= 3.
Proof.
  destruct (treated_rows_valid_for_any_draws (replay (repeat 5 30))) as (data & E & H).
  assert (Hd : inr data = fst (@simulate (replay (repeat 5 30)))) by (now rewrite E).
  assert (Hin : In (nth 1 data []) data).
  { apply nth_In. vm_compute in Hd. injection Hd as ->. simpl. lia. }
  assert (Hg : dict_get (nth 1 data []) "group" = Some (VStr "intervention")).
  { vm_compute in Hd. injection Hd as ->. reflexivity. }
  assert (Ht : dict_get (nth 1 data []) "timepoint" = Some (VStr "3_months")).
  { vm_compute in Hd. injection Hd as ->. reflexivity. }
  assert (Hq : In "Q1" questions) by (vm_compute; tauto).
  exists data, "3_months".
  split; [exact E |]. split; [exact Hg |]. split; [exact Ht |].
  split; [discriminate |].
  apply (H (nth 1 data []) "3_months" Hin Hg Ht); [discriminate | exact Hq].
Defined.

(** * Further properties of the checking script *)

(** ** Cells in general *)

Lemma summary_cell_general (df : DataFrame) (g t c : string) :
  In c subscale_columns ->
  t_at (summary_of df) [VStr g; VStr t] [VStr c]
  = if label_mem [VStr g; VStr t] (group_labels df)
    then option_map (round_decimals 2) (mean (numeric_cells c (rows_at df g t)))
    else None.
Proof.
  intros Hc. unfold summary_of, table_round. cbn [t_at grouped_means].
  change ["DASS_Anxiety"; "DASS_Depression"; "DASS_Stress"] with subscale_columns.
  rewrite (proj2 (str_mem_In c subscale_columns) Hc), andb_true_r.
  unfold group_labels, summary_of, table_round. cbn [t_index grouped_means].
  destruct (label_mem _ _); [| reflexivity].
  now rewrite rows_at_filter.
Qed.

Lemma label_mem_rows_at (df : DataFrame) (g t : string) :
  label_mem [VStr g; VStr t] (group_labels df)
  = match rows_at df g t with [] => false | _ => true end.
Proof.
  apply eq_iff_eq_true. rewrite label_mem_In, <- rows_at_nonempty.
  destruct (rows_at df g t); split; congruence.
Qed.

Lemma diff_cell_general (df : DataFrame) (g t c : string) :
  In c subscale_columns ->
  t_at (unstack_level0 (summary_of df)) [VStr t] [VStr c; VStr g]
  = group_cell df g t c.
Proof.
  intros Hc. unfold unstack_level0.
  cbn [t_at List.length Nat.sub skipn app removelast].
  fold (group_labels df).
  rewrite summary_cell_general by assumption.
  unfold group_cell. rewrite label_mem_rows_at.
  now destruct (rows_at df g t).
Qed.

Lemma report_columns_subscale (c name : string) :
  In (c, name) report_columns -> In c subscale_columns.
Proof.
  simpl. intros [H | [H | [H | []]]]; injection H as <- _; tauto.
Qed.

(** A reported difference in terms of the rows of the two groups. *)
Lemma change_cell_closed (df : DataFrame) (t c name : string) :
  In (c, name) report_columns ->
  t_at (change_of df) [VStr t] [VStr name]
  = option_map (round_decimals 2)
      (match group_cell df "intervention" t c, group_cell df "control" t c with
       | Some x, Some y => Some (x - y)%Q
       | _, _ => None
       end).
Proof.
  intros H. rewrite (change_cell df t c name H).
  now rewrite !diff_cell_general by (now apply report_columns_subscale with name).
Qed.

(** X12. When one of the two groups has no row at a timepoint, the
    difference reported for that timepoint is NaN for every subscale. *)
Theorem difference_is_nan_without_a_group
  (df : DataFrame) (time c name : string) :
  In (c, name) report_columns ->
  rows_at df "intervention" time = [] \/ rows_at df "control" time = [] ->
  t_at (change_of df) [VStr time] [VStr name] = None.
Proof.
  intros H Hmiss. rewrite (change_cell_closed df time c name H).
  unfold group_cell at 1 2.
  destruct Hmiss as [-> | ->]; [reflexivity |].
  now destruct (match rows_at df "intervention" time with
                | [] => None
                | _ => _
                end).
Qed.

(** X13. A reported difference depends on the rows of the two groups at its
    timepoint only: rows of other timepoints or of other groups, and the
    columns besides, do not influence it. *)
Theorem difference_depends_on_its_rows_only
  (df df' : DataFrame) (time c name : string) :
  In (c, name) report_columns ->
  rows_at df "intervention" time = rows_at df' "intervention" time ->
  rows_at df "control" time = rows_at df' "control" time ->
  t_at (change_of df) [VStr time] [VStr name]
  = t_at (change_of df') [VStr time] [VStr name].
Proof.
  intros H Hi Hc. rewrite !(change_cell_closed _ time c name H).
  unfold group_cell. now rewrite Hi, Hc.
Qed.

Lemma difference_is_nan_without_a_group_witness :
  fst (checking_script (fs_with control_misses_3_months) []) = inr tt
  /\ rows_at control_misses_3_months "control" "3_months" = []
  /\ t_at (change_of control_misses_3_months) [VStr "3_months"] [VStr "Stress"]
     = None.
Proof.
  split; [reflexivity |]. split; [reflexivity |].
  apply (difference_is_nan_without_a_group control_misses_3_months
           "3_months" "DASS_Stress" "Stress").
  - simpl. tauto.
  - right. reflexivity.
Defined.

Lemma difference_depends_on_its_rows_only_witness :
  rows_at five_ten "intervention" "baseline"
  = rows_at five_ten_and_more "intervention" "baseline"
  /\ rows_at five_ten "control" "baseline"
     = rows_at five_ten_and_more "control" "baseline"
  /\ t_at (change_of five_ten) [VStr "baseline"] [VStr "Anxiety"]
     = t_at (change_of five_ten_and_more) [VStr "baseline"] [VStr "Anxiety"].
Proof.
  split; [reflexivity |]. split; [reflexivity |].
  apply (difference_depends_on_its_rows_only five_ten five_ten_and_more
           "baseline" "DASS_Anxiety" "Anxiety").
  - simpl. tauto.
  - reflexivity.
  - reflexivity.
Defined.

(** ** The order of the rows *)













(** ** When the double rounding is harmless *)

Lemma round_decimals_hundredths (x : Q) (k : Z) :
  (x == inject_Z k / 100)%Q -> (round_decimals 2 x == x)%Q.
Proof.
  intros E. unfold round_decimals.
  change (inject_Z (10 ^ Z.of_nat 2)) with 100%Q.
  rewrite (rint_comp (x * 100) (inject_Z k)).
  - rewrite rint_inject_Z. now rewrite E.
  - rewrite E. field.
Qed.

Lemma round_decimals_comp (d : nat) (x y : Q) :
  (x == y)%Q -> round_decimals d x = round_decimals d y.
Proof.
  intros E. unfold round_decimals.
  rewrite (rint_comp (x * inject_Z (10 ^ Z.of_nat d)) (y * inject_Z (10 ^ Z.of_nat d)));
    [reflexivity | now rewrite E].
Qed.

Lemma arithmetic_mean_hundredths (xs : list Z) :
  (Z.of_nat (List.length xs) | 100) ->
  exists k, (arithmetic_mean xs == inject_Z k / 100)%Q.
Proof.
  intros [m Hm]. exists (fold_left Z.add xs 0 * m).
  unfold arithmetic_mean.
  assert (Hn : Z.of_nat (List.length xs) <> 0) by lia.
  assert (Hq : ~ (inject_Z (Z.of_nat (List.length xs)) == 0)%Q).
  { intros E. apply Hn. unfold Qeq in E. simpl in E. lia. }
  assert (E100 : (100 == inject_Z m * inject_Z (Z.of_nat (List.length xs)))%Q).
  { rewrite <- inject_Z_mult, <- Hm. reflexivity. }
  rewrite inject_Z_mult.
  generalize (fold_left Z.add xs 0) as s. intros s.
  setoid_replace (inject_Z s * inject_Z m / 100)%Q
    with (inject_Z s * inject_Z m
          / (inject_Z m * inject_Z (Z.of_nat (List.length xs))))%Q
    by (now rewrite <- E100).
  assert (Hm0 : ~ (inject_Z m == 0)%Q).
  { intros E. unfold Qeq in E. simpl in E. nia. }
  field. split; assumption.
Qed.

Lemma group_cell_integer (df : DataFrame) (g t c : string) :
  In c subscale_columns -> integer_totals df -> rows_at df g t <> [] ->
  group_cell df g t c = Some (round_decimals 2 (group_mean df g t c))
  /\ List.length (numeric_cells c (rows_at df g t))
     = List.length (rows_at df g t).
Proof.
  intros Hc Hint Hne.
  assert (Hlen : List.length (numeric_cells c (rows_at df g t))
                 = List.length (rows_at df g t)).
  { apply numeric_cells_length. intros row Hrow. apply (Hint row c); [| exact Hc].
    unfold rows_at in Hrow. now apply filter_In in Hrow. }
  split; [| exact Hlen].
  unfold group_cell, group_mean.
  destruct (rows_at df g t) as [| r rows] eqn:E; [congruence |].
  rewrite mean_arithmetic; [reflexivity |].
  intros E'. rewrite E' in Hlen. discriminate.
Qed.

Lemma divides_100_nonempty {A : Type} (l : list A) :
  (Z.of_nat (List.length l) | 100) -> l <> [].
Proof. intros [m Hm] ->. simpl in Hm. lia. Qed.

Lemma change_cell_exact (df : DataFrame) (time c name : string) :
  In (c, name) report_columns -> integer_totals df ->
  (Z.of_nat (List.length (rows_at df "intervention" time)) | 100) ->
  (Z.of_nat (List.length (rows_at df "control" time)) | 100) ->
  exists d,
    t_at (change_of df) [VStr time] [VStr name] = Some d
    /\ (d == group_mean df "intervention" time c
             - group_mean df "control" time c)%Q.
Proof.
  intros H Hint Di Dc.
  pose proof (report_columns_subscale c name H) as Hc.
  destruct (group_cell_integer df "intervention" time c Hc Hint
              (divides_100_nonempty _ Di)) as [Ei Li].
  destruct (group_cell_integer df "control" time c Hc Hint
              (divides_100_nonempty _ Dc)) as [Ec Lc].
  rewrite (change_cell_closed df time c name H), Ei, Ec. cbn [option_map].
  eexists. split; [reflexivity |].
  rewrite <- Li in Di. rewrite <- Lc in Dc.
  destruct (arithmetic_mean_hundredths _ Di) as [ki Hi].
  destruct (arithmetic_mean_hundredths _ Dc) as [kc Hk].
  fold (group_mean df "intervention" time c) in Hi.
  fold (group_mean df "control" time c) in Hk.
  pose proof (round_decimals_hundredths _ ki Hi) as Ri.
  pose proof (round_decimals_hundredths _ kc Hk) as Rc.
  rewrite (round_decimals_comp 2 _
             (group_mean df "intervention" time c - group_mean df "control" time c))
    by (now rewrite Ri, Rc).
  apply (round_decimals_hundredths _ (ki - kc)).
  rewrite Hi, Hk. unfold Z.sub. rewrite inject_Z_plus, inject_Z_opp. field.
Qed.

(** X15. When the number of rows of each group at a timepoint divides 100
    (as the 20 subjects per group of the simulation do), the group means have
    at most 2 decimals, so rounding them changes nothing: the table of means
    holds the exact arithmetic means and the reported difference is the exact
    difference of the two means. *)
Theorem report_exact_when_sizes_divide_100
  (df : DataFrame) (time c name : string) :
  In (c, name) report_columns -> integer_totals df ->
  (Z.of_nat (List.length (rows_at df "intervention" time)) | 100) ->
  (Z.of_nat (List.length (rows_at df "control" time)) | 100) ->
  exists mi mc d,
    t_at (summary_of df) [VStr "intervention"; VStr time] [VStr c] = Some mi
    /\ (mi == group_mean df "intervention" time c)%Q
    /\ t_at (summary_of df) [VStr "control"; VStr time] [VStr c] = Some mc
    /\ (mc == group_mean df "control" time c)%Q
    /\ t_at (change_of df) [VStr time] [VStr name] = Some d
    /\ (d == group_mean df "intervention" time c
             - group_mean df "control" time c)%Q.
Proof.
  intros H Hint Di Dc.
  pose proof (report_columns_subscale c name H) as Hc.
  pose proof (divides_100_nonempty _ Di) as Ni.
  pose proof (divides_100_nonempty _ Dc) as Nc.
  destruct (change_cell_exact df time c name H Hint Di Dc) as (d & Ed & Hd).
  exists (round_decimals 2 (group_mean df "intervention" time c)),
         (round_decimals 2 (group_mean df "control" time c)), d.
  destruct (group_cell_integer df "intervention" time c Hc Hint Ni) as [_ Li].
  destruct (group_cell_integer df "control" time c Hc Hint Nc) as [_ Lc].
  rewrite <- Li in Di. rewrite <- Lc in Dc.
  destruct (arithmetic_mean_hundredths _ Di) as [ki Hi].
  destruct (arithmetic_mean_hundredths _ Dc) as [kc Hk].
  split; [now apply summary_cell |].
  split; [exact (round_decimals_hundredths _ ki Hi) |].
  split; [now apply summary_cell |].
  split; [exact (round_decimals_hundredths _ kc Hk) |].
  split; [exact Ed | exact Hd].
Qed.

Lemma pairs_integer_totals : integer_totals pairs.
Proof.
  intros row c Hrow Hc. simpl in Hrow, Hc.
  repeat (destruct Hrow as [<- | Hrow];
          [destruct Hc as [<- | [<- | [<- | []]]]; eexists; reflexivity |]).
  destruct Hrow.
Qed.

Lemma report_exact_when_sizes_divide_100_witness :
  (Z.of_nat (List.length (rows_at pairs "intervention" "baseline")) | 100)
  /\ (Z.of_nat (List.length (rows_at pairs "control" "baseline")) | 100)
  /\ exists d,
       t_at (change_of pairs) [VStr "baseline"] [VStr "Anxiety"] = Some d
       /\ (d == group_mean pairs "intervention" "baseline" "DASS_Anxiety"
                - group_mean pairs "control" "baseline" "DASS_Anxiety")%Q.
Proof.
  assert (D : (Z.of_nat 2 | 100)) by (exists 50; reflexivity).
  assert (H : In ("DASS_Anxiety", "Anxiety") report_columns) by (simpl; tauto).
  split; [exact D |]. split; [exact D |].
  destruct (report_exact_when_sizes_divide_100 pairs "baseline" "DASS_Anxiety"
              "Anxiety" H pairs_integer_totals D D)
    as (mi & mc & d & _ & _ & _ & _ & Ed & Hd).
  exists d. split; [exact Ed | exact Hd].
Defined.

(** ** The rows of the table of means *)



(** ** The checking script on the simulated data *)

Lemma checking_script_succeeds (df : DataFrame) :
  (forall c, In c required_columns -> In c (df_columns df)) ->
  integer_totals df ->
  has_group df "intervention" = true -> has_group df "control" = true ->
  checking_script (fs_with df) []
  = (inr tt, [summary_heading; PTable (summary_of df);
              change_heading; PTable (change_of df)]).
Proof.
  intros Hcols Hint Hi Hc.
  rewrite checking_script_run.
  change (fs_with df "data/simulated_dass21_full.csv") with (Some df).
  destruct (proj1 (required_columns_split df) Hcols) as [-> ->].
  assert (Hnum : forallb (fun c => column_is_numeric c (df_rows df)) subscale_columns = true).
  { apply forallb_forall. intros c H. apply forallb_forall. intros row Hrow.
    destruct (Hint row c Hrow H) as [z ->]. reflexivity. }
  now rewrite Hnum, Hi, Hc.
Qed.

Lemma has_group_rows_at (df : DataFrame) (g t : string) :
  rows_at df g t <> [] -> has_group df g = true.
Proof.
  intros H. apply has_group_true. exists (VStr t). now apply rows_at_nonempty.
Qed.

Lemma rows_of_draws_integer_totals (l : list Z) :
  List.length l = 4200%nat -> integer_totals (pd_DataFrame (rows_of_draws l)).
Proof.
  intros Hl row c Hrow Hc. cbn [pd_DataFrame df_rows] in Hrow.
  destruct (rows_of_draws_chunks l row Hl Hrow) as (g & i & t & ch & _ & Hch & ->).
  destruct (row_closed_totals (stored_score g t) g (format_full_id g i) t ch Hch)
    as (Ea & Ed & Es).
  simpl in Hc. destruct Hc as [<- | [<- | [<- | []]]]; eexists; eassumption.
Qed.

(** X17. Run on the frame the simulation writes, the checking script
    succeeds for every generator: it prints the two tables, and for each of
    the 5 timepoints and each subscale the reported difference is the exact
    difference of the two group means (20 rows per group, so the rounding of
    the means loses nothing). *)
Theorem checking_the_simulated_data (G : Generator) :
  exists data,
    fst simulate = inr data
    /\ checking_script (fs_with (pd_DataFrame data)) []
       = (inr tt, [summary_heading; PTable (summary_of (pd_DataFrame data));
                   change_heading; PTable (change_of (pd_DataFrame data))])
    /\ forall time c name,
       In time timepoints -> In (c, name) report_columns ->
       exists d,
         t_at (change_of (pd_DataFrame data)) [VStr time] [VStr name] = Some d
         /\ (d == group_mean (pd_DataFrame data) "intervention" time c
                  - group_mean (pd_DataFrame data) "control" time c)%Q.
Proof.
  rewrite simulate_rows.
  pose proof (draws_length 4200 (np_random_seed 42)) as Hl. revert Hl.
  generalize (fst (draws 4200 (np_random_seed 42))) as l. intros l Hl.
  exists (rows_of_draws l). split; [reflexivity |].
  pose proof (rows_of_draws_integer_totals l Hl) as Hint.
  assert (Hlen : forall g t, In g groups -> In t timepoints ->
            List.length (rows_at (pd_DataFrame (rows_of_draws l)) g t) = 20%nat)
    by (intros g t; apply rows_of_draws_rows_at).
  assert (Hne : forall g, In g groups ->
            rows_at (pd_DataFrame (rows_of_draws l)) g "baseline" <> []).
  { intros g Hg E. apply (f_equal (@List.length dict)) in E.
    rewrite Hlen in E; [discriminate | exact Hg | simpl; tauto]. }
  split.
  - apply checking_script_succeeds.
    + intros c Hc. rewrite (rows_of_draws_columns l Hl).
      vm_compute. simpl in Hc. intuition.
    + exact Hint.
    + apply has_group_rows_at with "baseline". apply Hne. simpl. tauto.
    + apply has_group_rows_at with "baseline". apply Hne. simpl. tauto.
  - intros time c name Ht H.
    apply change_cell_exact; [exact H | exact Hint | |];
      rewrite Hlen by (simpl; tauto); exists 5; reflexivity.
Qed.

Lemma checking_the_simulated_data_witness :
  exists data d,
    fst (@simulate lcg) = inr data
    /\ In "6_months" timepoints /\ In ("DASS_Stress", "Stress") report_columns
    /\ t_at (change_of (pd_DataFrame data)) [VStr "6_months"] [VStr "Stress"]
       = Some d
    /\ (d == group_mean (pd_DataFrame data) "intervention" "6_months" "DASS_Stress"
             - group_mean (pd_DataFrame data) "control" "6_months" "DASS_Stress")%Q.
Proof.
  destruct (checking_the_simulated_data lcg) as (data & E & _ & H).
  assert (Ht : In "6_months" timepoints) by (simpl; tauto).
  assert (Hc : In ("DASS_Stress", "Stress") report_columns) by (simpl; tauto).
  destruct (H "6_months" "DASS_Stress" "Stress" Ht Hc) as (d & Ed & Hd).
  exists data, d. repeat split; assumption.
Defined.
